(** * The Mendix Platform SDK client (mendix-platform-sdk.ts)

    A shallow embedding of the SOAP client of [src/mendix-platform-sdk.ts]:
    the credential check of [MendixSdkClient], the interceptor stages of
    [PlatformSdkClient] (status classification, result extraction, job-status
    extraction), the polling loop [_awaitJobResult], the three operations built
    on it, [OnlineWorkingCopy.commit], the [createWorkingCopy] shortcuts of
    [Project] and [Revision], and the helper [rejectWithError].

    Promises are modelled by their final outcome (resolved, rejected, or never
    settled), the network by the list of responses the transport will deliver to
    the successive requests, and the effects that matter for ordering (timers,
    requests, calls into the Model SDK) are recorded in a trace. Calls to
    [console.log] are left out. *)

From Stdlib Require Import String Ascii List ZArith Bool Lia DecimalString DecimalPos.
Import ListNotations.
Open Scope string_scope.
Set Warnings "-register-all".

(** ** JavaScript values *)

(** The three error classes of the file: the host [Error] and its two
    subclasses [EmptyError] and [ParseError]. *)
Inductive error_class : Type :=
| PlainError
| EmptyError
| ParseError.

(** A JavaScript number as far as this code needs it: [parseInt] results,
    revision numbers, status codes. [Num z] stands for the double of value
    [z]; doubles are exact, and print with all their digits, on the integers
    from [-MAX_SAFE_INTEGER] to [MAX_SAFE_INTEGER] only, and the statements
    that name a numeral are made for that range. Fractions and infinities are
    not represented. *)
Inductive number : Type :=
| NaN
| Num (z : Z).

(** The run-time values that flow through the client: what xml2js builds out of
    a document (objects, arrays and strings), absent values, numbers,
    instances of the error classes with their [message], and the
    [AssertionError] that [jsonpath.query] throws, with its message. *)
Inductive value : Type :=
| VUndefined
| VNull
| VNum (n : number)
| VStr (s : string)
| VArr (items : list value)
| VObj (fields : list (string * value))
| VErr (cls : error_class) (message : value)
| VAssertionError (message : string).

Definition decimal (z : Z) : string := NilZero.string_of_int (Z.to_int z).

(** [Number.MAX_SAFE_INTEGER], 2^53 - 1. *)
Definition MAX_SAFE_INTEGER : Z := 9007199254740991.

Definition safe_integer (z : Z) : Prop :=
  (- MAX_SAFE_INTEGER <= z <= MAX_SAFE_INTEGER)%Z.

(** [error.name]: none of the classes assigns [name] (the declared field has no
    initialiser), so the inherited [Error.prototype.name] is read. *)
Definition error_name (cls : error_class) : string := "Error".

(** ToString, as applied by template literals and by property lookup.
    Arrays join their elements with commas, absent elements giving the empty
    string; error objects print as [name: message]. *)
Fixpoint toString (v : value) : string :=
  match v with
  | VUndefined => "undefined"
  | VNull => "null"
  | VNum NaN => "NaN"
  | VNum (Num z) => decimal z
  | VStr s => s
  | VArr items =>
      (fix join (l : list value) : string :=
         match l with
         | [] => ""
         | x :: l' =>
             let sx := match x with
                       | VUndefined | VNull => ""
                       | _ => toString x
                       end in
             match l' with
             | [] => sx
             | _ :: _ => sx ++ "," ++ join l'
             end
         end) items
  | VObj _ => "[object Object]"
  | VErr cls message =>
      let msg := match message with
                 | VUndefined => ""
                 | _ => toString message
                 end in
      if (msg =? "")%string then error_name cls
      else error_name cls ++ ": " ++ msg
  | VAssertionError message =>
      if (message =? "")%string then "AssertionError"
      else "AssertionError: " ++ message
  end.

(** The [typeof] operator. *)
Definition typeof (v : value) : string :=
  match v with
  | VUndefined => "undefined"
  | VNum _ => "number"
  | VStr _ => "string"
  | VNull | VArr _ | VObj _ | VErr _ _ | VAssertionError _ => "object"
  end.

(** Truthiness, as tested by [if (x)] and [x && y]. *)
Definition truthy (v : value) : bool :=
  match v with
  | VUndefined | VNull => false
  | VNum NaN => false
  | VNum (Num z) => negb (z =? 0)%Z
  | VStr s => negb (s =? "")%string
  | VArr _ | VObj _ | VErr _ _ | VAssertionError _ => true
  end.

(** [x == null]: true of [null] and [undefined] only. *)
Definition loose_eq_null (v : value) : bool :=
  match v with
  | VUndefined | VNull => true
  | _ => false
  end.

(** lodash's [_.isEmpty]: absent values, numbers, empty strings, empty arrays
    and objects without own enumerable keys are empty. An instance of
    [EmptyError] or [ParseError] owns its assigned [message], an
    [AssertionError] its assigned fields; a host [Error] owns no enumerable
    key. *)
Definition isEmpty (v : value) : bool :=
  match v with
  | VUndefined | VNull => true
  | VNum _ => true
  | VStr s => (s =? "")%string
  | VArr items => match items with [] => true | _ :: _ => false end
  | VObj fields => match fields with [] => true | _ :: _ => false end
  | VErr PlainError _ => true
  | VErr _ _ => false
  | VAssertionError _ => false
  end.

(** *** parseInt *)

(** The white space that [parseInt] skips, among the code units a [string]
    can hold here (those below 256): TAB, LF, VT, FF, CR, SP and NBSP. *)
Definition is_whitespace (c : ascii) : bool :=
  let n := nat_of_ascii c in
  ((9 <=? n) && (n <=? 13) || (n =? 32) || (n =? 160))%nat.

Fixpoint trim_left (s : string) : string :=
  match s with
  | String c s' => if is_whitespace c then trim_left s' else s
  | EmptyString => s
  end.

(** The value of a character as a digit, for radices up to 16. *)
Definition digit_value (c : ascii) : option Z :=
  let n := Z.of_nat (nat_of_ascii c) in
  if ((48 <=? n) && (n <=? 57))%Z then Some (n - 48)%Z
  else if ((97 <=? n) && (n <=? 102))%Z then Some (n - 87)%Z
  else if ((65 <=? n) && (n <=? 70))%Z then Some (n - 55)%Z
  else None.

(** The integer denoted by the longest prefix of radix-[radix] digits; [acc] is
    [None] as long as no digit has been read. *)
Fixpoint digits_prefix (radix : Z) (s : string) (acc : option Z) : option Z :=
  match s with
  | EmptyString => acc
  | String c s' =>
      match digit_value c with
      | Some d =>
          if (d <? radix)%Z
          then digits_prefix radix s'
                 (Some (match acc with
                        | None => d
                        | Some a => a * radix + d
                        end)%Z)
          else acc
      | None => acc
      end
  end.

(** An optional sign in front of the digits. *)
Definition strip_sign (s : string) : Z * string :=
  match s with
  | String "-" s' => ((-1)%Z, s')
  | String "+" s' => (1%Z, s')
  | _ => (1%Z, s)
  end.

(** An optional [0x] or [0X] prefix selects radix 16; radix 10 otherwise. *)
Definition strip_prefix (s : string) : Z * string :=
  match s with
  | String "0" (String "x" s') => (16%Z, s')
  | String "0" (String "X" s') => (16%Z, s')
  | _ => (10%Z, s)
  end.

(** [parseInt(x)] with no radix argument: ToString, skip leading white space, an
    optional sign, an optional [0x]/[0X] prefix, then the longest digit prefix;
    [NaN] when that prefix is empty. A [string] is a sequence of code units
    below 256. The result is the exact value of the numeral, as in
    JavaScript up to [MAX_SAFE_INTEGER]; beyond, an engine rounds. *)
Definition parseInt (v : value) : number :=
  let '(sign, s) := strip_sign (trim_left (toString v)) in
  let '(radix, s) := strip_prefix s in
  match digits_prefix radix s None with
  | None => NaN
  | Some m => Num (sign * m)
  end.

(** Is the first character of [s] a decimal digit? *)
Definition starts_with_digit (s : string) : bool :=
  match s with
  | String c _ =>
      let n := nat_of_ascii c in ((48 <=? n) && (n <=? 57))%nat
  | EmptyString => false
  end.

(** Is the first character of [s] an [x] or an [X]? *)
Definition starts_with_x (s : string) : bool :=
  match s with
  | String c _ =>
      let n := nat_of_ascii c in ((n =? 120) || (n =? 88))%nat
  | EmptyString => false
  end.


(** ** Promises *)

(** How a promise ends: resolved with a value, rejected with a reason, or never
    settled. *)
Inductive outcome (A : Type) : Type :=
| Resolved (a : A)
| Rejected (reason : value)
| Pending.

Arguments Resolved {A} a.
Arguments Rejected {A} reason.
Arguments Pending {A}.

(** [p.then(f)]: [f] runs on the resolved value; a rejection passes through
    unchanged. *)
Definition then_ {A B : Type} (p : outcome A) (f : A -> outcome B) : outcome B :=
  match p with
  | Resolved a => f a
  | Rejected reason => Rejected reason
  | Pending => Pending
  end.

(** How a collaborator that takes a success and an error continuation answers:
    it calls one of them, or neither. *)
Inductive callback (A : Type) : Type :=
| OnSuccess (a : A)
| OnError (err : value)
| NoCallback.

Arguments OnSuccess {A} a.
Arguments OnError {A} err.
Arguments NoCallback {A}.

(** ** Requests, responses and effects *)

Inductive template : Type :=
| CreateNewAppXml
| CreateOnlineWorkingCopyXml
| CommitWorkingCopyChangesXml
| RetrieveJobStatusXml.

Record RequestContents : Type := {
  path : string;
  method : string;
  headers : list (string * string);
  mixin : list (string * string);
  payload : string                      (* the request's [entity] *)
}.

(** A response of the rest client, with the entity type of the stage it has
    reached. [status] is the status code, [None] when [response.status] is
    missing or empty; [statusMessage] is [response.raw.response.statusMessage]. *)
Record Response (E : Type) : Type := {
  error : value;
  status : option Z;
  statusMessage : value;
  entity : E
}.

Arguments error {E} _.
Arguments status {E} _.
Arguments statusMessage {E} _.
Arguments entity {E} _.

(** [response.entity = e]. *)
Definition set_entity {E F : Type} (response : Response E) (e : F) : Response F :=
  {| error := error response;
     status := status response;
     statusMessage := statusMessage response;
     entity := e |}.

(** A response as the transport delivers it: the entity is the body text, the
    empty string when there is none (the code only ever asks [_.isEmpty] of it
    before parsing, which does not tell the two apart). *)
Definition RawResponse : Type := Response string.

Inductive event : Type :=
| EvTimeout (ms : Z)
| EvRequest (prefix : string) (request : RequestContents)
| EvCloseConnection
| EvOpenWorkingCopy (workingCopyId : value).

(** The result of running an operation against the responses the transport has
    in store: the effects in order, the responses left, and how the returned
    promise ends. *)
Record run (A : Type) : Type := {
  trace : list event;
  rest : list RawResponse;
  out : outcome A
}.

Arguments trace {A} _.
Arguments rest {A} _.
Arguments out {A} _.

Definition prog (A : Type) : Type := list RawResponse -> run A.

Definition ret {A : Type} (a : A) : prog A :=
  fun wire => {| trace := []; rest := wire; out := Resolved a |}.

Definition fail {A : Type} (reason : value) : prog A :=
  fun wire => {| trace := []; rest := wire; out := Rejected reason |}.

(** The effects [evs] happen, then [r]. *)
Definition after {A : Type} (evs : list event) (r : run A) : run A :=
  {| trace := evs ++ trace r; rest := rest r; out := out r |}.

Definition bind {A B : Type} (p : prog A) (f : A -> prog B) : prog B :=
  fun wire =>
    let r := p wire in
    match out r with
    | Resolved a => after (trace r) (f a (rest r))
    | Rejected reason => {| trace := trace r; rest := rest r; out := Rejected reason |}
    | Pending => {| trace := trace r; rest := rest r; out := Pending |}
    end.

Notation "x <- p ;; q" := (bind p (fun x => q))
  (at level 61, p at next level, right associativity).

(** A client assembled with [rest.wrap(...)...wrap(pathPrefix, {prefix})],
    applied to [request]: the request goes to the transport, and the response
    that comes back runs through the interceptor [stages]. A transport that has
    nothing left to deliver never answers. *)
Definition send {A : Type} (prefix : string) (request : RequestContents)
    (stages : RawResponse -> outcome A) : prog A :=
  fun wire =>
    match wire with
    | [] => {| trace := [EvRequest prefix request]; rest := []; out := Pending |}
    | raw :: wire' =>
        {| trace := [EvRequest prefix request]; rest := wire'; out := stages raw |}
    end.

(** The number of requests handed to the transport. *)
Fixpoint requests (t : list event) : nat :=
  match t with
  | [] => 0
  | EvRequest _ _ :: t' => S (requests t')
  | _ :: t' => requests t'
  end.

(** ** JobState *)

Inductive JobState : Type :=
| Running
| Completed
| Failed.

Definition JobState_number (s : JobState) : Z :=
  match s with
  | Running => 0
  | Completed => 1
  | Failed => 2
  end.

(** [JobState[key]] on the object TypeScript emits for the enum: the names map
    to their numbers and the numbers back to the names. Any other key gives no
    number (an inherited member of [Object.prototype] at most), rendered here
    as [undefined]. *)
Definition JobState_lookup (key : value) : value :=
  let k := toString key in
  if (k =? "Running")%string then VNum (Num 0)
  else if (k =? "Completed")%string then VNum (Num 1)
  else if (k =? "Failed")%string then VNum (Num 2)
  else if (k =? "0")%string then VStr "Running"
  else if (k =? "1")%string then VStr "Completed"
  else if (k =? "2")%string then VStr "Failed"
  else VUndefined.

(** [v === n] for a number [n]. *)
Definition strict_eq_number (v : value) (n : Z) : bool :=
  match v with
  | VNum (Num z) => (z =? n)%Z
  | _ => false
  end.

Record JobResult : Type := {
  jobId : value;
  startTime : value;
  endTime : value;
  state : value;
  result : value;
  errorMessage : value
}.

(** ** External libraries *)

(** What the client takes from xml2js, jsonpath, the file system and lodash's
    template engine. [parseString] gives the error or the parsed tree handed to
    its callback; [jsonpath_query] the array of matches, or on the left the
    message of the [AssertionError] that [jsonpath.query] throws (it asserts
    that the tree is an object, and xml2js hands over [null] for a blank
    body); [_compilePayload]
    the text of a template rendered against its bindings. *)
Class Externals : Type := {
  parseString : string -> value + value;
  jsonpath_query : value -> string -> string + list value;
  _compilePayload : template -> list (string * value) -> string
}.

(** [array[0]]. *)
Definition first (matches : list value) : value :=
  match matches with
  | [] => VUndefined
  | v :: _ => v
  end.

(** ** Domain handles *)

(** The handle of an open working copy in the Model SDK; [closeConnection] is
    the answer its [closeConnection(onSuccess, onError)] will give. *)
Record IModel : Type := {
  closeConnection : callback unit
}.

(** The two credential objects the constructor builds. *)
Inductive Credentials : Type :=
| BackendCredentials (username apikey : value)
| SdkCredentials (username password openid : value).

(** The Model SDK client, as far as this file uses it: what it was constructed
    with, and the answer of [openWorkingCopy(id, onSuccess, onError)]. *)
Record ModelSdkClient : Type := {
  credentials : Credentials;
  endPoint : string;
  openWorkingCopy : value -> callback IModel
}.

(** [MendixSdkClient] together with the fields of the [PlatformSdkClient] it
    owns. *)
Record MendixSdkClient : Type := {
  _modelSdkClient : ModelSdkClient;
  _username : value;
  _apikey : value;
  _projectsApiEndpoint : string
}.

(** Handles keep a reference to the client in the source; the operations below
    take the client as an argument instead. A branch's project can be [null]. *)
Record Project : Type := {
  Project_id : value;
  Project_name : value
}.

Record Branch : Type := {
  Branch_project : option Project;
  Branch_name : value
}.

Record Revision : Type := {
  Revision_num : number;
  Revision_branch : Branch
}.

Record OnlineWorkingCopy : Type := {
  OnlineWorkingCopy_id : value;
  OnlineWorkingCopy_sourceRevision : Revision;
  OnlineWorkingCopy_model : IModel
}.

(** [workingCopy.project()]. *)
Definition OnlineWorkingCopy_project (workingCopy : OnlineWorkingCopy) : option Project :=
  Branch_project (Revision_branch (OnlineWorkingCopy_sourceRevision workingCopy)).

Definition DEFAULT_MODELAPI_ENDPOINT : string := "https://model-api.cfapps.io".
Definition DEFAULT_PROJECTSAPI_ENDPOINT : string := "https://sprintr.home.mendix.com".
Definition PROJECTS_API_PATH : string := "/ws/ProjectsAPI/9/soap1".
Definition HTTP_STATUS_OK_RESPONSE_CODE : Z := 200.
Definition HTTP_STATUS_WS_ERROR_RESPONSE_CODE : Z := 500.

(** ** MendixSdkClient.constructor *)

(** The credentials the constructor settles on, [None] where it throws. *)
Definition choose_credentials (username apikey password openid : value)
    : option Credentials :=
  if truthy apikey then Some (BackendCredentials username apikey)
  else if truthy password && truthy openid
       then Some (SdkCredentials username password openid)
       else None.

(** [new MendixSdkClient(username, apikey, password, openid,
    projectsApiEndpoint, modelApiEndpoint)]: the thrown error on the left, the
    client on the right. [backend] is the behaviour of the Model SDK client that
    gets constructed. No request can be issued here: the result is a value,
    not a [prog]. *)
Definition new_MendixSdkClient (backend : value -> callback IModel)
    (username apikey password openid projectsApiEndpoint modelApiEndpoint : value)
    : value + MendixSdkClient :=
  match choose_credentials username apikey password openid with
  | None => inl (VErr PlainError (VStr "Incomplete credentials"))
  | Some creds =>
      inr {| _modelSdkClient :=
               {| credentials := creds;
                  endPoint := if truthy modelApiEndpoint
                              then toString modelApiEndpoint
                              else DEFAULT_MODELAPI_ENDPOINT;
                  openWorkingCopy := backend |};
             _username := username;
             _apikey := apikey;
             _projectsApiEndpoint := if truthy projectsApiEndpoint
                                     then toString projectsApiEndpoint
                                     else DEFAULT_PROJECTSAPI_ENDPOINT |}
  end.

(** ** rejectWithError *)

Definition supportLink : string := "Please consult https://mxforum.mendix.com/".

(** [rejectWithError(error, reject)] for the error object [VErr cls message]:
    the reason handed to [reject]. The [switch] is on [typeof (error)]. *)
Definition rejectWithError (cls : error_class) (message : value) : value :=
  let error := VErr cls message in
  let errorType := typeof error in
  if (errorType =? "ParseError")%string
  then VStr ("Response parsing error: " ++ toString message ++ ". " ++ supportLink)
  else if (errorType =? "EmptyError")%string
  then VStr ("Empty response error: " ++ toString message ++ ". " ++ supportLink)
  else VStr (error_name cls ++ ": " ++ toString message ++ ". " ++ supportLink).

(** ** PlatformSdkClient *)

Section Client.

Context {ext : Externals}.

Definition _createRequestContent (tpl : template) (data : list (string * value))
    : RequestContents :=
  let payload := _compilePayload tpl data in
  {| path := PROJECTS_API_PATH;
     method := "POST";
     headers := [("Content-Type", "text/xml;charset=UTF-8")];
     mixin := [];
     payload := payload |}.

(** An error thrown by [jsonpath.query] leaves the parser's callback and
    rejects the promise that is being made. *)
Definition _parseAndQuery (xml : string) (query : string) : outcome value :=
  match parseString xml with
  | inl err => Rejected (VErr ParseError err)
  | inr parsed =>
      match jsonpath_query parsed query with
      | inl message => Rejected (VAssertionError message)
      | inr matches =>
          let parseResult := first matches in
          if isEmpty parseResult
          then Rejected (VErr EmptyError
                           (VStr ("Query " ++ query ++ " on " ++ toString parseResult
                                  ++ " does not give any result")))
          else Resolved parseResult
      end
  end.

(** The [response] handler of [_createHttpErrorCodeInterceptor(errorMessage)]. *)
Definition _createHttpErrorCodeInterceptor (errorMessage : string)
    (response : RawResponse) : outcome RawResponse :=
  if truthy (error response)
  then Rejected (VStr ("Connection error: " ++ toString (error response)))
  else
    match status response with
    | None => Rejected (VStr "Error: invalid HTTP response")
    | Some code =>
        if isEmpty (VStr (entity response))
        then Rejected (VStr "Error: invalid HTTP response")
        else if (code =? HTTP_STATUS_OK_RESPONSE_CODE)%Z
        then Resolved response
        else if (code =? HTTP_STATUS_WS_ERROR_RESPONSE_CODE)%Z
        then
          match _parseAndQuery (entity response) "$..faultstring[0]" with
          | Resolved cause => Rejected (VStr (errorMessage ++ ": " ++ toString cause))
          | Rejected err => Rejected err
          | Pending => Pending
          end
        else Rejected
               (VStr ("Unexpected HTTP response code: " ++ decimal code ++ " "
                      ++ toString (statusMessage response)
                      ++ ". Please retry after a few minutes. If the problem persists, please consult https://mxforum.mendix.com"))
    end.

(** The [success] handler of [_parseResult()]. *)
Definition _parseResult (response : RawResponse) : outcome (Response value) :=
  if isEmpty (VStr (entity response))
  then Rejected (VStr "Error: HTTP response entity missing")
  else then_ (_parseAndQuery (entity response) "$..Result[0]")
             (fun result => Resolved (set_entity response result)).

(** The six queries run in the order of the source; the first one that
    throws ends the function with its error (on the left, its message). *)
Definition _parseJobResult (parsed : value) : string + JobResult :=
  match jsonpath_query parsed "$..JobId[0]" with
  | inl thrown => inl thrown
  | inr jobIds =>
  match jsonpath_query parsed "$..StartTime[0]" with
  | inl thrown => inl thrown
  | inr startTimes =>
  match jsonpath_query parsed "$..EndTime[0]" with
  | inl thrown => inl thrown
  | inr endTimes =>
  match jsonpath_query parsed "$..State[0]" with
  | inl thrown => inl thrown
  | inr states =>
  match jsonpath_query parsed "$..Result[0]" with
  | inl thrown => inl thrown
  | inr results =>
  match jsonpath_query parsed "$..ErrorMessage[0]" with
  | inl thrown => inl thrown
  | inr errorMessages =>
      inr {| jobId := first jobIds;
             startTime := first startTimes;
             endTime := first endTimes;
             state := first states;
             result := first results;
             errorMessage := first errorMessages |}
  end end end end end end.

(** The [success] handler of [_parseJobStatus()]. *)
Definition _parseJobStatus (response : RawResponse) : outcome (Response JobResult) :=
  if isEmpty (VStr (entity response))
  then Rejected (VStr "Error: HTTP response entity missing")
  else
    match parseString (entity response) with
    | inl err => Rejected err
    | inr parsed =>
        match _parseJobResult parsed with
        | inl message => Rejected (VAssertionError message)
        | inr jobResult => Resolved (set_entity response jobResult)
        end
    end.

(** The interceptor chain of the submitting clients: the innermost wrapper, the
    status classification, sees the response first; [_parseResult] runs on what
    it resolves with; [pathPrefix] leaves responses alone. *)
Definition submission_stages (errorMessage : string) (raw : RawResponse)
    : outcome (Response value) :=
  then_ (_createHttpErrorCodeInterceptor errorMessage raw) _parseResult.

(** The interceptor chain of the job-status client. *)
Definition status_stages (raw : RawResponse) : outcome (Response JobResult) :=
  then_ (_createHttpErrorCodeInterceptor "Error when retrieving job status" raw)
        _parseJobStatus.

(** [_awaitJobResult(jobId)]: after the timer the status request goes out; the
    response decides between resolving, rejecting and polling again. The
    recursive call runs on the responses that are left. *)
Fixpoint _awaitJobResult (client : MendixSdkClient) (jobId : value)
    (wire : list RawResponse) {struct wire} : run JobResult :=
  let request := _createRequestContent RetrieveJobStatusXml [("JobId", jobId)] in
  let fired := [EvTimeout 1000; EvRequest (_projectsApiEndpoint client) request] in
  match wire with
  | [] => {| trace := fired; rest := []; out := Pending |}
  | raw :: wire' =>
      match status_stages raw with
      | Resolved response =>
          let state := state (entity response) in
          if strict_eq_number (JobState_lookup state) (JobState_number Completed)
          then {| trace := fired; rest := wire'; out := Resolved (entity response) |}
          else if strict_eq_number (JobState_lookup state) (JobState_number Failed)
          then {| trace := fired; rest := wire';
                  out := Rejected (errorMessage (entity response)) |}
          else after fired (_awaitJobResult client jobId wire')
      | Rejected reason => {| trace := fired; rest := wire'; out := Rejected reason |}
      | Pending => {| trace := fired; rest := wire'; out := Pending |}
      end
  end.

Definition createNewApp (client : MendixSdkClient) (projectName projectSummary : value)
    : prog Project :=
  let contents := _createRequestContent CreateNewAppXml
                    [("ProjectName", projectName);
                     ("ProjectSummary", projectSummary);
                     ("User", _username client);
                     ("ApiKey", _apikey client)] in
  response <- send (_projectsApiEndpoint client) contents
                (submission_stages "Failed to create new app") ;;
  jobResult <- _awaitJobResult client (entity response) ;;
  ret {| Project_id := result jobResult; Project_name := projectName |}.

Definition createOnlineWorkingCopy (client : MendixSdkClient) (project : Project)
    (revision : option Revision) : prog OnlineWorkingCopy :=
  let request := _createRequestContent CreateOnlineWorkingCopyXml
                   [("Username", _username client);
                    ("ApiKey", _apikey client);
                    ("ProjectId", Project_id project);
                    ("Branch", match revision with
                               | Some r => Branch_name (Revision_branch r)
                               | None => VNull
                               end);
                    ("Revision", match revision with
                                 | Some r => VNum (Revision_num r)
                                 | None => VNull
                                 end)] in
  response <- send (_projectsApiEndpoint client) request
                (submission_stages "Failed to create online working copy") ;;
  jobResult <- _awaitJobResult client (entity response) ;;
  let wcId := result jobResult in
  fun wire =>
    {| trace := [EvOpenWorkingCopy wcId];
       rest := wire;
       out := match openWorkingCopy (_modelSdkClient client) wcId with
              | OnSuccess model =>
                  let rev := match revision with
                             | Some r => r
                             | None =>
                                 {| Revision_num := Num (-1);
                                    Revision_branch :=
                                      {| Branch_project := Some project;
                                         Branch_name := VNull |} |}
                             end in
                  Resolved {| OnlineWorkingCopy_id := wcId;
                              OnlineWorkingCopy_sourceRevision := rev;
                              OnlineWorkingCopy_model := model |}
              | OnError err => Rejected err
              | NoCallback => Pending
              end |}.

(** [baseRevision < -1]. *)
Definition below_head (baseRevision : number) : bool :=
  match baseRevision with
  | NaN => false
  | Num z => (z <? -1)%Z
  end.

(** The last continuation of [commitToTeamServer]: from the job result to the
    committed revision. *)
Definition revision_of_job (project : option Project) (branchName : value)
    (jobResult : JobResult) : outcome Revision :=
  let num := parseInt (result jobResult) in
  if loose_eq_null (VNum num)
  then Rejected
         (VStr ("Failed to commit changes to team server: revision "
                ++ toString (VNum num) ++ " on branch " ++ toString branchName
                ++ ". Reason: returned job id is not a number."))
  else
    let branch := {| Branch_project := project; Branch_name := branchName |} in
    Resolved {| Revision_num := num; Revision_branch := branch |}.

(** [commitToTeamServer(workingCopy, branchName, baseRevision)]. An omitted
    (or [undefined]) [branchName] defaults to [null], an omitted [baseRevision]
    to [-1]. *)
Definition commitToTeamServer (client : MendixSdkClient)
    (workingCopy : option OnlineWorkingCopy) (branchName : value)
    (baseRevision : option number) : prog Revision :=
  let branchName := match branchName with VUndefined => VNull | _ => branchName end in
  let baseRevision := match baseRevision with Some n => n | None => Num (-1) end in
  match workingCopy with
  | None => fail (VStr "Working copy is empty or does not contain referral to project")
  | Some wc =>
      match OnlineWorkingCopy_project wc with
      | None => fail (VStr "Working copy is empty or does not contain referral to project")
      | Some project =>
          if below_head baseRevision
          then fail (VStr ("Invalid base revision " ++ toString (VNum baseRevision)))
          else
            let request := _createRequestContent CommitWorkingCopyChangesXml
                             [("Username", _username client);
                              ("ApiKey", _apikey client);
                              ("WorkingCopyId", OnlineWorkingCopy_id wc);
                              ("ProjectId", Project_id project);
                              ("Branch", branchName);
                              ("Revision", VNum baseRevision)] in
            response <- send (_projectsApiEndpoint client) request
                          (submission_stages "Failed to commit to team server") ;;
            jobResult <- _awaitJobResult client (entity response) ;;
            fun wire =>
              {| trace := []; rest := wire;
                 out := revision_of_job (OnlineWorkingCopy_project wc) branchName
                          jobResult |}
      end
  end.

(** [OnlineWorkingCopy.commit(branchName, baseRevision)]: the connection to the
    Model API is closed first; the commit is the [then] of that promise. *)
Definition commit (client : MendixSdkClient) (workingCopy : OnlineWorkingCopy)
    (branchName : value) (baseRevision : option number) : prog Revision :=
  fun wire =>
    match closeConnection (OnlineWorkingCopy_model workingCopy) with
    | OnSuccess _ =>
        after [EvCloseConnection]
          (commitToTeamServer client (Some workingCopy) branchName baseRevision wire)
    | OnError err => {| trace := [EvCloseConnection]; rest := wire; out := Rejected err |}
    | NoCallback => {| trace := [EvCloseConnection]; rest := wire; out := Pending |}
    end.

(** What one round of [_awaitJobResult] does before the response arrives. *)
Definition poll_effects (client : MendixSdkClient) (jobId : value) : list event :=
  [EvTimeout 1000;
   EvRequest (_projectsApiEndpoint client)
     (_createRequestContent RetrieveJobStatusXml [("JobId", jobId)])].

(** A status response that passes the interceptors with the given [State]. *)
Definition reports (s : string) (raw : RawResponse) : Prop :=
  exists response,
    status_stages raw = Resolved response /\ state (entity response) = VStr s.

(** The name under which the enum object stores the number of a state. *)
Definition JobState_name (s : JobState) : string :=
  match s with
  | Running => "Running"
  | Completed => "Completed"
  | Failed => "Failed"
  end.

(** [project.createWorkingCopy(revision)] runs on the platform client of the
    project's own [_client], passed here as [owner]: the client the project
    was made with, whoever calls. *)
Definition Project_createWorkingCopy (owner : MendixSdkClient) (project : Project)
    (revision : option Revision) : prog OnlineWorkingCopy :=
  createOnlineWorkingCopy owner project revision.

(** [revision.createWorkingCopy()] goes through the project of the revision's
    branch, and so runs on that project's client, [owner]; on a branch without
    project the call itself throws (a [TypeError], before any promise
    exists), rendered as [None]. *)
Definition Revision_createWorkingCopy (owner : MendixSdkClient) (revision : Revision)
    : option (prog OnlineWorkingCopy) :=
  match Branch_project (Revision_branch revision) with
  | Some project => Some (Project_createWorkingCopy owner project (Some revision))
  | None => None
  end.


(** A request as every operation of the platform client builds it: a POST to
    the fixed service path under the client's endpoint, with the XML content
    type. Other effects are not constrained. *)
Definition service_request (client : MendixSdkClient) (e : event) : Prop :=
  match e with
  | EvRequest prefix request =>
      prefix = _projectsApiEndpoint client
      /\ path request = PROJECTS_API_PATH
      /\ method request = "POST"
      /\ headers request = [("Content-Type", "text/xml;charset=UTF-8")]
  | _ => True
  end.

(** The number of timers armed, and of calls to [closeConnection] and
    [openWorkingCopy]. *)
Fixpoint timeouts (t : list event) : nat :=
  match t with
  | [] => 0
  | EvTimeout _ :: t' => S (timeouts t')
  | _ :: t' => timeouts t'
  end.

Fixpoint closings (t : list event) : nat :=
  match t with
  | [] => 0
  | EvCloseConnection :: t' => S (closings t')
  | _ :: t' => closings t'
  end.

Fixpoint openings (t : list event) : nat :=
  match t with
  | [] => 0
  | EvOpenWorkingCopy _ :: t' => S (openings t')
  | _ :: t' => openings t'
  end.

(** One round of the loop, seen from outside: either it settles on this
    response, or it goes round again on the responses that follow. *)
Inductive round (client : MendixSdkClient) (id : value) (raw : RawResponse)
    (wire : list RawResponse) : Prop :=
| round_resolves (response : Response JobResult) :
    status_stages raw = Resolved response ->
    toString (state (entity response)) = "Completed" ->
    _awaitJobResult client id (raw :: wire)
    = {| trace := poll_effects client id; rest := wire;
         out := Resolved (entity response) |} ->
    round client id raw wire
| round_fails (response : Response JobResult) :
    status_stages raw = Resolved response ->
    toString (state (entity response)) = "Failed" ->
    _awaitJobResult client id (raw :: wire)
    = {| trace := poll_effects client id; rest := wire;
         out := Rejected (errorMessage (entity response)) |} ->
    round client id raw wire
| round_aborts (reason : value) :
    status_stages raw = Rejected reason ->
    _awaitJobResult client id (raw :: wire)
    = {| trace := poll_effects client id; rest := wire; out := Rejected reason |} ->
    round client id raw wire
| round_again (response : Response JobResult) :
    status_stages raw = Resolved response ->
    toString (state (entity response)) <> "Completed" ->
    toString (state (entity response)) <> "Failed" ->
    _awaitJobResult client id (raw :: wire)
    = after (poll_effects client id) (_awaitJobResult client id wire) ->
    round client id raw wire.

End Client.

(** ** Statements of the specification, for comparison with the code *)


(** The specification on the result-extraction stage. However its words are
    read, it leaves a 200 response with a body three ways to end: the body
    replaced by a match of the query, an [EmptyError], or a [ParseError]. *)
Definition result_extraction_as_specified (ext : Externals) : Prop :=
  forall errorMessage raw,
    truthy (error raw) = false ->
    status raw = Some 200%Z ->
    isEmpty (VStr (entity raw)) = false ->
    (exists v, submission_stages errorMessage raw = Resolved (set_entity raw v))
    \/ (exists message,
          submission_stages errorMessage raw = Rejected (VErr EmptyError message))
    \/ (exists message,
          submission_stages errorMessage raw = Rejected (VErr ParseError message)).

(** The specification on a base revision below -1: every such call of
    [commitToTeamServer] fails with the message that carries the number. *)
Definition low_base_revision_is_named (ext : Externals) : Prop :=
  forall client workingCopy branchName (z : Z) wire,
    (z < -1)%Z ->
    out (commitToTeamServer client workingCopy branchName (Some (Num z)) wire)
    = Rejected (VStr ("Invalid base revision " ++ decimal z)).





(** ** A sample environment *)

(** Documents used in the examples, with the trees xml2js builds for them:
    every element becomes a member holding the array of its occurrences, text
    content a string, an element without content the empty string. *)
Definition doc_job_submitted : string :=
  "<Response><Result>J1</Result></Response>".
Definition doc_empty_result : string :=
  "<Response><Result></Result></Response>".
Definition doc_no_result : string :=
  "<Response><Other>x</Other></Response>".
Definition doc_fault : string :=
  "<Fault><faultcode>Server</faultcode><faultstring>Project does not exist</faultstring></Fault>".
Definition doc_running : string :=
  "<Job><JobId>J1</JobId><State>Running</State></Job>".
Definition doc_completed : string :=
  "<Job><JobId>J1</JobId><State>Completed</State><Result>app-42</Result></Job>".
Definition doc_failed : string :=
  "<Job><JobId>J1</JobId><State>Failed</State><ErrorMessage>No such revision</ErrorMessage></Job>".
Definition doc_no_state : string :=
  "<Job><JobId>J1</JobId><StartTime>t0</StartTime></Job>".
Definition doc_malformed : string :=
  "<Response><Result>J1</Response>".
Definition doc_blank : string := " ".

Definition element (name : string) (children : list (string * value)) : value :=
  VObj [(name, VObj children)].

Definition text (name content : string) : string * value :=
  (name, VArr [VStr content]).

Definition sample_documents : list (string * value) :=
  [ (doc_job_submitted, element "Response" [text "Result" "J1"]);
    (doc_empty_result, element "Response" [text "Result" ""]);
    (doc_no_result, element "Response" [text "Other" "x"]);
    (doc_fault, element "Fault" [text "faultcode" "Server";
                                 text "faultstring" "Project does not exist"]);
    (doc_running, element "Job" [text "JobId" "J1"; text "State" "Running"]);
    (doc_completed, element "Job" [text "JobId" "J1"; text "State" "Completed";
                                   text "Result" "app-42"]);
    (doc_failed, element "Job" [text "JobId" "J1"; text "State" "Failed";
                                text "ErrorMessage" "No such revision"]);
    (doc_no_state, element "Job" [text "JobId" "J1"; text "StartTime" "t0"]);
    (doc_blank, VNull) ].

Fixpoint lookup_document (docs : list (string * value)) (xml : string) : value + value :=
  match docs with
  | [] => inl (VErr PlainError (VStr "Unexpected close tag"))
  | (d, tree) :: docs' => if (d =? xml)%string then inr tree else lookup_document docs' xml
  end.

(** All values stored under the member [name], at any depth. *)
Fixpoint members_named (name : string) (v : value) : list value :=
  match v with
  | VObj fields =>
      (fix walk (fs : list (string * value)) : list value :=
         match fs with
         | [] => []
         | (k, x) :: fs' =>
             ((if (k =? name)%string then [x] else [])
                ++ members_named name x ++ walk fs')%list
         end) fields
  | VArr items =>
      (fix walk (l : list value) : list value :=
         match l with
         | [] => []
         | x :: l' => (members_named name x ++ walk l')%list
         end) items
  | _ => []
  end.

(** The element at index 0, if there is one. *)
Definition index0 (v : value) : list value :=
  match v with
  | VArr (x :: _) => [x]
  | _ => []
  end.

(** What [jsonpath.query] throws when the tree is not an object. *)
Definition assertion_error : value := VAssertionError "obj needs to be an object".

(** Queries of the form [$..name[0]], the only ones the client issues; a tree
    that is not an object (arrays and error objects are) makes the query
    throw. *)
Definition sample_query (tree : value) (query : string) : string + list value :=
  match tree with
  | VObj _ | VArr _ | VErr _ _ | VAssertionError _ =>
      let name := substring 3 (String.length query - 6) query in
      inr (flat_map index0 (members_named name tree))
  | _ => inl "obj needs to be an object"
  end.

Definition template_name (tpl : template) : string :=
  match tpl with
  | CreateNewAppXml => "CreateNewApp"
  | CreateOnlineWorkingCopyXml => "CreateOnlineWorkingCopy"
  | CommitWorkingCopyChangesXml => "CommitWorkingCopyChanges"
  | RetrieveJobStatusXml => "RetrieveJobStatus"
  end.

(** A stand-in for the templates: the template's name followed by the bindings,
    absent values rendering as nothing. *)
Definition sample_render (tpl : template) (data : list (string * value)) : string :=
  fold_left
    (fun acc kv =>
       acc ++ " " ++ fst kv ++ "="
           ++ match snd kv with
              | VUndefined | VNull => ""
              | v => toString v
              end)
    data (template_name tpl).

Definition sample_externals : Externals :=
  {| parseString := lookup_document sample_documents;
     jsonpath_query := sample_query;
     _compilePayload := sample_render |}.

Definition ok_response (body : string) : RawResponse :=
  {| error := VUndefined; status := Some 200%Z; statusMessage := VStr "OK";
     entity := body |}.

Definition fault_response (body : string) : RawResponse :=
  {| error := VUndefined; status := Some 500%Z;
     statusMessage := VStr "Internal Server Error"; entity := body |}.

Definition sample_client : MendixSdkClient :=
  {| _modelSdkClient :=
       {| credentials := BackendCredentials (VStr "richard") (VStr "key");
          endPoint := DEFAULT_MODELAPI_ENDPOINT;
          openWorkingCopy := fun _ => OnSuccess {| closeConnection := OnSuccess tt |} |};
     _username := VStr "richard";
     _apikey := VStr "key";
     _projectsApiEndpoint := DEFAULT_PROJECTSAPI_ENDPOINT |}.

Definition sample_project : Project :=
  {| Project_id := VStr "P-99"; Project_name := VStr "Foo" |}.

Definition sample_working_copy (close : callback unit) : OnlineWorkingCopy :=
  {| OnlineWorkingCopy_id := VStr "wc-1";
     OnlineWorkingCopy_sourceRevision :=
       {| Revision_num := Num (-1);
          Revision_branch := {| Branch_project := Some sample_project;
                                Branch_name := VNull |} |};
     OnlineWorkingCopy_model := {| closeConnection := close |} |}.

(** More of the sample environment: a commit job that completed with
    revision 3, a response of a server that does not know the path, and what
    the transport hands over when the host cannot be resolved. *)
Definition doc_revision : string :=
  "<Job><JobId>J2</JobId><State>Completed</State><Result>3</Result></Job>".

Definition more_documents : list (string * value) :=
  (doc_revision, element "Job" [text "JobId" "J2"; text "State" "Completed";
                                text "Result" "3"])
    :: sample_documents.

Definition sample_externals_with_revision : Externals :=
  {| parseString := lookup_document more_documents;
     jsonpath_query := sample_query;
     _compilePayload := sample_render |}.

Definition not_found_response : RawResponse :=
  {| error := VUndefined; status := Some 404%Z; statusMessage := VStr "Not Found";
     entity := "<html>Not Found</html>" |}.

Definition unreachable_response : RawResponse :=
  {| error := VStr "getaddrinfo ENOTFOUND"; status := None;
     statusMessage := VUndefined; entity := "" |}.

(** A second client, with its own endpoint and credentials. *)
Definition other_client : MendixSdkClient :=
  {| _modelSdkClient :=
       {| credentials := BackendCredentials (VStr "ford") (VStr "other key");
          endPoint := DEFAULT_MODELAPI_ENDPOINT;
          openWorkingCopy := fun _ => NoCallback |};
     _username := VStr "ford";
     _apikey := VStr "other key";
     _projectsApiEndpoint := "https://sprintr.home.mendix.dev" |}.

(** * Properties *)

Section Properties.

Context {ext : Externals}.

(** ** Traces *)

Lemma requests_app (t1 t2 : list event) :
  requests (t1 ++ t2) = requests t1 + requests t2.
Proof.
  induction t1 as [|e t1 IH]; simpl; [reflexivity|].
  destruct e; simpl; rewrite IH; reflexivity.
Qed.

Lemma requests_after {A : Type} (evs : list event) (r : run A) :
  requests (trace (after evs r)) = requests evs + requests (trace r).
Proof. unfold after; simpl. apply requests_app. Qed.

(** ** The polling loop *)

Lemma awaitJobResult_running client jobId raw wire :
  reports "Running" raw ->
  _awaitJobResult client jobId (raw :: wire)
  = after (poll_effects client jobId) (_awaitJobResult client jobId wire).
Proof.
  intros (response & Hst & Hrun).
  simpl. rewrite Hst, Hrun. reflexivity.
Qed.

Lemma awaitJobResult_completed client jobId raw wire response :
  status_stages raw = Resolved response ->
  state (entity response) = VStr "Completed" ->
  _awaitJobResult client jobId (raw :: wire)
  = {| trace := poll_effects client jobId; rest := wire;
       out := Resolved (entity response) |}.
Proof.
  intros Hst Hdone. simpl. rewrite Hst, Hdone. reflexivity.
Qed.

Lemma awaitJobResult_failed client jobId raw wire response :
  status_stages raw = Resolved response ->
  state (entity response) = VStr "Failed" ->
  _awaitJobResult client jobId (raw :: wire)
  = {| trace := poll_effects client jobId; rest := wire;
       out := Rejected (errorMessage (entity response)) |}.
Proof.
  intros Hst Hfail. simpl. rewrite Hst, Hfail. reflexivity.
Qed.

Lemma awaitJobResult_silence client jobId :
  _awaitJobResult client jobId []
  = {| trace := poll_effects client jobId; rest := []; out := Pending |}.
Proof. reflexivity. Qed.

(** While the job is running the loop goes round once per response: the
    requests of a run are one per [Running] response, plus those of the run on
    what follows. *)
Lemma awaitJobResult_running_prefix client jobId running wire :
  Forall (reports "Running") running ->
  requests (trace (_awaitJobResult client jobId (running ++ wire)))
  = length running + requests (trace (_awaitJobResult client jobId wire))
  /\ out (_awaitJobResult client jobId (running ++ wire))
     = out (_awaitJobResult client jobId wire)
  /\ rest (_awaitJobResult client jobId (running ++ wire))
     = rest (_awaitJobResult client jobId wire).
Proof.
  induction 1 as [|raw running Hraw _ IH]; simpl app.
  - simpl. auto.
  - rewrite (awaitJobResult_running _ _ _ _ Hraw).
    rewrite requests_after. destruct IH as (IH1 & IH2 & IH3).
    unfold after; simpl out; simpl rest.
    rewrite IH1. simpl. auto.
Qed.

(** C1. A polling loop whose status responses report [Running] any number of
    times and then [Completed] issues exactly one status request per response
    (each [Running] response causing one further request) and resolves with the
    job result of the [Completed] response; as long as only [Running] responses
    have arrived, one further request is outstanding and the promise is not
    settled. The caller reads the [result] field of what the loop resolved
    with: [createNewApp] resolves with the project whose id is that result. *)
Theorem awaitJobResult_resolves_on_completed :
  forall client jobId (running : list RawResponse) (last : RawResponse)
         (wire : list RawResponse) (response : Response JobResult),
    Forall (reports "Running") running ->
    status_stages last = Resolved response ->
    state (entity response) = VStr "Completed" ->
    let r := _awaitJobResult client jobId (running ++ last :: wire) in
    let unanswered := _awaitJobResult client jobId running in
    requests (trace r) = S (length running)
    /\ out r = Resolved (entity response)
    /\ rest r = wire
    /\ requests (trace unanswered) = S (length running)
    /\ out unanswered = Pending
    /\ (forall submission submitted projectName projectSummary,
          submission_stages "Failed to create new app" submission
          = Resolved submitted ->
          out (createNewApp client projectName projectSummary
                 (submission :: running ++ last :: wire)%list)
          = Resolved {| Project_id := result (entity response);
                        Project_name := projectName |}).
Proof.
  intros client jobId running last wire response Hrun Hst Hdone r unanswered.
  destruct (awaitJobResult_running_prefix client jobId running (last :: wire) Hrun)
    as (H1 & H2 & H3).
  pose proof (awaitJobResult_running_prefix client jobId running [] Hrun) as H.
  rewrite app_nil_r in H. destruct H as (H4 & H5 & _).
  rewrite (awaitJobResult_completed _ _ _ _ _ Hst Hdone) in H1, H2, H3.
  rewrite awaitJobResult_silence in H4, H5. simpl in H1, H2, H3, H4, H5.
  subst r unanswered.
  split; [lia|]. split; [assumption|]. split; [assumption|].
  split; [lia|]. split; [assumption|].
  intros submission submitted projectName projectSummary Hsub.
  destruct (awaitJobResult_running_prefix client (entity submitted) running
              (last :: wire) Hrun) as (_ & Hout & _).
  rewrite (awaitJobResult_completed _ _ _ _ _ Hst Hdone) in Hout. simpl in Hout.
  unfold createNewApp, bind, send. cbn [out trace rest].
  rewrite Hsub. cbn [out trace rest after]. rewrite Hout. reflexivity.
Qed.

(** C2. A polling loop whose status responses report [Running] any number of
    times and then [Failed] rejects with the [errorMessage] of that response,
    unchanged, and a caller's continuation chained with [then] leaves the
    rejection as it is. *)
Theorem awaitJobResult_rejects_on_failed :
  forall client jobId (running : list RawResponse) (last : RawResponse)
         (wire : list RawResponse) (response : Response JobResult)
         (B : Type) (continuation : JobResult -> prog B),
    Forall (reports "Running") running ->
    status_stages last = Resolved response ->
    state (entity response) = VStr "Failed" ->
    let r := _awaitJobResult client jobId (running ++ last :: wire) in
    out r = Rejected (errorMessage (entity response))
    /\ requests (trace r) = S (length running)
    /\ out (bind (_awaitJobResult client jobId) continuation
              (running ++ last :: wire)%list)
       = Rejected (errorMessage (entity response)).
Proof.
  intros client jobId running last wire response B k Hrun Hst Hfail r.
  destruct (awaitJobResult_running_prefix client jobId running (last :: wire) Hrun)
    as (H1 & H2 & _).
  rewrite (awaitJobResult_failed _ _ _ _ _ Hst Hfail) in H1, H2. simpl in H1, H2.
  subst r. split; [assumption|]. split; [lia|].
  unfold bind. rewrite H2. reflexivity.
Qed.

(** ** Status classification *)

Lemma classification_of_fault errorMessage (response : RawResponse) :
  truthy (error response) = false ->
  status response = Some 500%Z ->
  isEmpty (VStr (entity response)) = false ->
  _createHttpErrorCodeInterceptor errorMessage response
  = match _parseAndQuery (entity response) "$..faultstring[0]" with
    | Resolved cause => Rejected (VStr (errorMessage ++ ": " ++ toString cause))
    | Rejected err => Rejected err
    | Pending => Pending
    end.
Proof.
  intros Herr Hst Hbody. unfold _createHttpErrorCodeInterceptor.
  rewrite Herr, Hst, Hbody. reflexivity.
Qed.

Lemma classification_of_ok errorMessage (response : RawResponse) :
  truthy (error response) = false ->
  status response = Some 200%Z ->
  isEmpty (VStr (entity response)) = false ->
  _createHttpErrorCodeInterceptor errorMessage response = Resolved response.
Proof.
  intros Herr Hst Hbody. unfold _createHttpErrorCodeInterceptor.
  rewrite Herr, Hst, Hbody. reflexivity.
Qed.

(** C3. A response with status 500 that got past the checks for a transport
    error and for an empty body: the body is parsed and queried for
    [$..faultstring[0]]; when that gives a non-empty value the stage rejects
    with the caller's context, a colon and a space, and the fault string; when
    the fault string cannot be extracted, the error of the extraction itself
    is the rejection, as it is: the [ParseError] for a body that does not
    parse, the [AssertionError] thrown by the query on a body without tree,
    the [EmptyError] for a body without fault string. The submitting pipeline
    ends the same way. *)
Theorem fault_response_rejects_with_context :
  forall (errorMessage : string) (response : RawResponse),
    truthy (error response) = false ->
    status response = Some 500%Z ->
    isEmpty (VStr (entity response)) = false ->
    let rejects reason :=
      _createHttpErrorCodeInterceptor errorMessage response = Rejected reason
      /\ submission_stages errorMessage response = Rejected reason in
    match _parseAndQuery (entity response) "$..faultstring[0]" with
    | Resolved cause => rejects (VStr (errorMessage ++ ": " ++ toString cause))
    | Rejected err => rejects err
    | Pending => False
    end
    /\ match parseString (entity response) with
       | inl err => rejects (VErr ParseError err)
       | inr tree =>
           match jsonpath_query tree "$..faultstring[0]" with
           | inl message => rejects (VAssertionError message)
           | inr matches =>
               let cause := first matches in
               if isEmpty cause
               then exists message, rejects (VErr EmptyError message)
               else rejects (VStr (errorMessage ++ ": " ++ toString cause))
           end
       end.
Proof.
  intros errorMessage response Herr Hst Hbody rejects. subst rejects.
  pose proof (classification_of_fault errorMessage response Herr Hst Hbody) as Hc.
  unfold submission_stages. rewrite Hc. unfold _parseAndQuery.
  destruct (parseString (entity response)) as [err|tree].
  - repeat split; reflexivity.
  - destruct (jsonpath_query tree "$..faultstring[0]") as [message|matches].
    + repeat split; reflexivity.
    + cbv zeta. destruct (isEmpty (first matches)).
      * split; [split; reflexivity|]. eexists. split; reflexivity.
      * repeat split; reflexivity.
Qed.

(** ** Job-status extraction *)





(** ** Result extraction *)

(** C7, as the code has it. A 200 response with a body, on a submitting
    client: a body that does not parse rejects with a [ParseError]; a body
    that parses to a tree the query throws on (no tree at all, for a blank
    body) rejects with the [AssertionError] that was thrown; a body in which
    the query for
    [$..Result[0]] has no match, or an empty first match, rejects with an
    [EmptyError]; otherwise the response resolves with its entity replaced by
    the first match. *)
Theorem result_extraction_on_ok :
  forall (errorMessage : string) (raw : RawResponse),
    truthy (error raw) = false ->
    status raw = Some 200%Z ->
    isEmpty (VStr (entity raw)) = false ->
    match parseString (entity raw) with
    | inl err => submission_stages errorMessage raw = Rejected (VErr ParseError err)
    | inr tree =>
        match jsonpath_query tree "$..Result[0]" with
        | inl message =>
            submission_stages errorMessage raw = Rejected (VAssertionError message)
        | inr [] =>
            exists message,
              submission_stages errorMessage raw = Rejected (VErr EmptyError message)
        | inr (v :: _) =>
            if isEmpty v
            then exists message,
                   submission_stages errorMessage raw
                   = Rejected (VErr EmptyError message)
            else submission_stages errorMessage raw = Resolved (set_entity raw v)
        end
    end.
Proof.
  intros errorMessage raw Herr Hst Hbody.
  unfold submission_stages.
  rewrite (classification_of_ok _ _ Herr Hst Hbody). simpl.
  unfold _parseResult, _parseAndQuery. rewrite Hbody.
  destruct (parseString (entity raw)) as [err|tree]; [reflexivity|].
  destruct (jsonpath_query tree "$..Result[0]") as [thrown|[|v matches]]; simpl.
  - reflexivity.
  - eexists. reflexivity.
  - destruct (isEmpty v); simpl; [eexists|]; reflexivity.
Qed.

(** ** Committing *)

(** C8. In every run of [commit], a request reaches the transport only if the
    connection's [closeConnection] answered through its success continuation,
    and only after [closeConnection] was called; if it answers through the
    error continuation, no request is issued and the operation is rejected
    with that error. *)
Theorem commit_waits_for_close :
  forall client (workingCopy : OnlineWorkingCopy) (branchName : value)
         (baseRevision : option number) (wire : list RawResponse),
    let r := commit client workingCopy branchName baseRevision wire in
    (forall before prefix request later,
        trace r = (before ++ EvRequest prefix request :: later)%list ->
        closeConnection (OnlineWorkingCopy_model workingCopy) = OnSuccess tt
        /\ In EvCloseConnection before)
    /\ (forall err,
          closeConnection (OnlineWorkingCopy_model workingCopy) = OnError err ->
          out r = Rejected err /\ requests (trace r) = 0 /\ rest r = wire).
Proof.
  intros client workingCopy branchName baseRevision wire r. subst r.
  unfold commit.
  destruct (closeConnection (OnlineWorkingCopy_model workingCopy)) as [[]|err|];
    simpl; split.
  - intros before prefix request later Htrace. split; [reflexivity|].
    destruct before as [|e before]; simpl in Htrace; [discriminate|].
    injection Htrace as He _. subst e. left. reflexivity.
  - discriminate.
  - intros before prefix request later Htrace.
    destruct before as [|e [|e' before]]; discriminate.
  - intros err' Heq. injection Heq as <-. auto.
  - intros before prefix request later Htrace.
    destruct before as [|e [|e' before]]; discriminate.
  - discriminate.
Qed.

(** C9, as the code has it. [commitToTeamServer] with an integer base
    revision below -1: the promise is rejected at once, no effect takes place
    and no response is consumed. On a working copy that refers to a project
    the reason is the text [Invalid base revision] followed by that number;
    without a working copy, or without a project, the reason is the one of the
    check that comes first, [Working copy is empty or does not contain
    referral to project]. *)
Theorem commitToTeamServer_rejects_low_base_revision :
  forall client (workingCopy : option OnlineWorkingCopy) (branchName : value)
         (z : Z) (wire : list RawResponse),
    (z < -1)%Z ->
    safe_integer z ->
    let r := commitToTeamServer client workingCopy branchName (Some (Num z)) wire in
    trace r = []
    /\ rest r = wire
    /\ out r
       = match workingCopy with
         | None =>
             Rejected
               (VStr "Working copy is empty or does not contain referral to project")
         | Some wc =>
             match OnlineWorkingCopy_project wc with
             | None =>
                 Rejected
                   (VStr "Working copy is empty or does not contain referral to project")
             | Some _ => Rejected (VStr ("Invalid base revision " ++ decimal z))
             end
         end.
Proof.
  intros client workingCopy branchName z wire Hz _ r. subst r.
  unfold commitToTeamServer.
  destruct workingCopy as [wc|]; [|repeat split].
  destruct (OnlineWorkingCopy_project wc) as [project|]; [|repeat split].
  unfold below_head. destruct (Z.ltb_spec z (-1)); [|lia]. repeat split.
Qed.

(** *** parseInt on text that does not start with a number *)



(** *** parseInt on a numeral followed by other text *)

Lemma digits_prefix_digit (c : ascii) (k : Z) (s : string) (a : option Z) :
  digit_value c = Some k ->
  (k <? 10)%Z = true ->
  digits_prefix 10 (String c s) a
  = digits_prefix 10 s (Some (match a with
                              | None => k
                              | Some a' => a' * 10 + k
                              end)%Z).
Proof. intros H1 H2. cbn [digits_prefix]. rewrite H1, H2. reflexivity. Qed.

(** Reading stops at the first character that is not a decimal digit. *)
Lemma digits_prefix_stop (s : string) (a : option Z) :
  starts_with_digit s = false -> digits_prefix 10 s a = a.
Proof.
  destruct s as [|c s]; [reflexivity|].
  destruct c as [[] [] [] [] [] [] [] []]; simpl; intros H;
    solve [reflexivity | discriminate H].
Qed.

Ltac read_digit c k :=
  rewrite (digits_prefix_digit c k) by reflexivity.

Lemma digits_prefix_uint_acc (d : Decimal.uint) (rest : string) (acc : positive) :
  digits_prefix 10 (NilEmpty.string_of_uint d ++ rest) (Some (Z.pos acc))
  = digits_prefix 10 rest (Some (Z.pos (Pos.of_uint_acc d acc))).
Proof.
  revert acc. induction d as [|d IH|d IH|d IH|d IH|d IH|d IH|d IH|d IH|d IH|d IH];
    intros acc; cbn [NilEmpty.string_of_uint Pos.of_uint_acc append]; [reflexivity|..].
  - read_digit "0"%char 0%Z.
    replace (Z.pos acc * 10 + 0)%Z with (Z.pos (Pos.mul 10 acc)) by lia. apply IH.
  - read_digit "1"%char 1%Z.
    replace (Z.pos acc * 10 + 1)%Z with (Z.pos (Pos.add 1 (Pos.mul 10 acc))) by lia.
    apply IH.
  - read_digit "2"%char 2%Z.
    replace (Z.pos acc * 10 + 2)%Z with (Z.pos (Pos.add 2 (Pos.mul 10 acc))) by lia.
    apply IH.
  - read_digit "3"%char 3%Z.
    replace (Z.pos acc * 10 + 3)%Z with (Z.pos (Pos.add 3 (Pos.mul 10 acc))) by lia.
    apply IH.
  - read_digit "4"%char 4%Z.
    replace (Z.pos acc * 10 + 4)%Z with (Z.pos (Pos.add 4 (Pos.mul 10 acc))) by lia.
    apply IH.
  - read_digit "5"%char 5%Z.
    replace (Z.pos acc * 10 + 5)%Z with (Z.pos (Pos.add 5 (Pos.mul 10 acc))) by lia.
    apply IH.
  - read_digit "6"%char 6%Z.
    replace (Z.pos acc * 10 + 6)%Z with (Z.pos (Pos.add 6 (Pos.mul 10 acc))) by lia.
    apply IH.
  - read_digit "7"%char 7%Z.
    replace (Z.pos acc * 10 + 7)%Z with (Z.pos (Pos.add 7 (Pos.mul 10 acc))) by lia.
    apply IH.
  - read_digit "8"%char 8%Z.
    replace (Z.pos acc * 10 + 8)%Z with (Z.pos (Pos.add 8 (Pos.mul 10 acc))) by lia.
    apply IH.
  - read_digit "9"%char 9%Z.
    replace (Z.pos acc * 10 + 9)%Z with (Z.pos (Pos.add 9 (Pos.mul 10 acc))) by lia.
    apply IH.
Qed.

Lemma digits_prefix_uint_zero (d : Decimal.uint) (rest : string) :
  digits_prefix 10 (NilEmpty.string_of_uint d ++ rest) (Some 0%Z)
  = digits_prefix 10 rest (Some (Z.of_N (Pos.of_uint d))).
Proof.
  induction d as [|d IH|d IH|d IH|d IH|d IH|d IH|d IH|d IH|d IH|d IH];
    cbn [NilEmpty.string_of_uint Pos.of_uint append]; [reflexivity|..].
  - read_digit "0"%char 0%Z. apply IH.
  - read_digit "1"%char 1%Z. apply digits_prefix_uint_acc.
  - read_digit "2"%char 2%Z. apply digits_prefix_uint_acc.
  - read_digit "3"%char 3%Z. apply digits_prefix_uint_acc.
  - read_digit "4"%char 4%Z. apply digits_prefix_uint_acc.
  - read_digit "5"%char 5%Z. apply digits_prefix_uint_acc.
  - read_digit "6"%char 6%Z. apply digits_prefix_uint_acc.
  - read_digit "7"%char 7%Z. apply digits_prefix_uint_acc.
  - read_digit "8"%char 8%Z. apply digits_prefix_uint_acc.
  - read_digit "9"%char 9%Z. apply digits_prefix_uint_acc.
Qed.

Lemma digits_prefix_uint (d : Decimal.uint) (rest : string) :
  d <> Decimal.Nil ->
  digits_prefix 10 (NilEmpty.string_of_uint d ++ rest) None
  = digits_prefix 10 rest (Some (Z.of_N (Pos.of_uint d))).
Proof.
  intros Hd. destruct d; [contradiction|..];
    cbn [NilEmpty.string_of_uint Pos.of_uint append].
  - read_digit "0"%char 0%Z. apply digits_prefix_uint_zero.
  - read_digit "1"%char 1%Z. apply digits_prefix_uint_acc.
  - read_digit "2"%char 2%Z. apply digits_prefix_uint_acc.
  - read_digit "3"%char 3%Z. apply digits_prefix_uint_acc.
  - read_digit "4"%char 4%Z. apply digits_prefix_uint_acc.
  - read_digit "5"%char 5%Z. apply digits_prefix_uint_acc.
  - read_digit "6"%char 6%Z. apply digits_prefix_uint_acc.
  - read_digit "7"%char 7%Z. apply digits_prefix_uint_acc.
  - read_digit "8"%char 8%Z. apply digits_prefix_uint_acc.
  - read_digit "9"%char 9%Z. apply digits_prefix_uint_acc.
Qed.

(** The text of a numeral starts with a digit: nothing is trimmed and there is
    no sign to strip; and unless an [x] follows it directly there is no radix
    prefix either. *)
Lemma uint_text_is_plain (d : Decimal.uint) (rest : string) :
  d <> Decimal.Nil ->
  starts_with_digit rest = false ->
  starts_with_x rest = false ->
  trim_left (NilEmpty.string_of_uint d ++ rest) = NilEmpty.string_of_uint d ++ rest
  /\ strip_sign (NilEmpty.string_of_uint d ++ rest)
     = (1%Z, NilEmpty.string_of_uint d ++ rest)
  /\ strip_prefix (NilEmpty.string_of_uint d ++ rest)
     = (10%Z, NilEmpty.string_of_uint d ++ rest).
Proof.
  intros Hd Hdigit Hx. destruct d as [|d|d|d|d|d|d|d|d|d|d]; [contradiction|..];
    try (repeat split; reflexivity).
  repeat split; try reflexivity.
  destruct d; try reflexivity.
  cbn [NilEmpty.string_of_uint append].
  destruct rest as [|c rest]; [reflexivity|].
  destruct c as [[] [] [] [] [] [] [] []]; simpl in Hx |- *;
    solve [reflexivity | discriminate Hx].
Qed.

Lemma parseInt_of_uint (sign : Z) (d : Decimal.uint) (rest s : string) :
  d <> Decimal.Nil ->
  starts_with_digit rest = false ->
  starts_with_x rest = false ->
  strip_sign (trim_left s) = (sign, NilEmpty.string_of_uint d ++ rest) ->
  parseInt (VStr s) = Num (sign * Z.of_N (Pos.of_uint d)).
Proof.
  intros Hd Hdigit Hx Hs. unfold parseInt. cbn [toString]. rewrite Hs.
  destruct (uint_text_is_plain d rest Hd Hdigit Hx) as (_ & _ & Hp). rewrite Hp.
  rewrite (digits_prefix_uint d rest Hd), (digits_prefix_stop rest _ Hdigit).
  reflexivity.
Qed.

(** A numeral followed by text that starts with neither a digit nor an [x]:
    [parseInt] gives the number of the numeral. *)
Lemma parseInt_numeral_then_text (z : Z) (rest : string) :
  starts_with_digit rest = false ->
  starts_with_x rest = false ->
  parseInt (VStr (decimal z ++ rest)) = Num z.
Proof.
  intros Hdigit Hx. destruct z as [|p|p].
  - change (decimal 0) with (NilEmpty.string_of_uint (Decimal.D0 Decimal.Nil)).
    rewrite (parseInt_of_uint 1 (Decimal.D0 Decimal.Nil) rest); try assumption.
    + reflexivity.
    + discriminate.
    + assert (Hnil : Decimal.D0 Decimal.Nil <> Decimal.Nil) by discriminate.
      destruct (uint_text_is_plain (Decimal.D0 Decimal.Nil) rest Hnil Hdigit Hx)
        as (Ht & Hsg & _).
      rewrite Ht. exact Hsg.
  - pose proof (DecimalPos.Unsigned.to_uint_nonnil p) as Hd.
    rewrite (parseInt_of_uint 1 (Pos.to_uint p) rest); try assumption.
    + rewrite DecimalPos.Unsigned.of_to. reflexivity.
    + unfold decimal. cbn [Z.to_int NilZero.string_of_int].
      unfold NilZero.string_of_uint.
      destruct (uint_text_is_plain _ rest Hd Hdigit Hx) as (Ht & Hsg & _).
      destruct (Pos.to_uint p); [contradiction|..]; rewrite Ht; exact Hsg.
  - pose proof (DecimalPos.Unsigned.to_uint_nonnil p) as Hd.
    rewrite (parseInt_of_uint (-1) (Pos.to_uint p) rest); try assumption.
    + rewrite DecimalPos.Unsigned.of_to. reflexivity.
    + unfold decimal. cbn [Z.to_int NilZero.string_of_int].
      unfold NilZero.string_of_uint.
      destruct (Pos.to_uint p); [contradiction|..]; reflexivity.
Qed.

Lemma append_empty (s : string) : (s ++ "")%string = s.
Proof. induction s as [|c s IH]; simpl; [reflexivity|]. rewrite IH. reflexivity. Qed.

Lemma parseInt_decimal (z : Z) : parseInt (VStr (decimal z)) = Num z.
Proof.
  rewrite <- (append_empty (decimal z)).
  apply parseInt_numeral_then_text; reflexivity.
Qed.


End Properties.

(** ** Credentials *)

Lemma constructor_accepts_apikey backend username apikey password openid e1 e2 :
  truthy apikey = true ->
  exists client,
    new_MendixSdkClient backend username apikey password openid e1 e2 = inr client
    /\ credentials (_modelSdkClient client) = BackendCredentials username apikey.
Proof.
  intros Hkey. unfold new_MendixSdkClient, choose_credentials. rewrite Hkey.
  eexists. split; reflexivity.
Qed.

Lemma constructor_accepts_password backend username apikey password openid e1 e2 :
  truthy apikey = false ->
  truthy password = true ->
  truthy openid = true ->
  exists client,
    new_MendixSdkClient backend username apikey password openid e1 e2 = inr client
    /\ credentials (_modelSdkClient client)
       = SdkCredentials username password openid.
Proof.
  intros Hkey Hpw Hid. unfold new_MendixSdkClient, choose_credentials.
  rewrite Hkey, Hpw, Hid. eexists. split; reflexivity.
Qed.

Lemma constructor_throws backend username apikey password openid e1 e2 :
  truthy apikey = false ->
  truthy password && truthy openid = false ->
  new_MendixSdkClient backend username apikey password openid e1 e2
  = inl (VErr PlainError (VStr "Incomplete credentials")).
Proof.
  intros Hkey Hrest. unfold new_MendixSdkClient, choose_credentials.
  rewrite Hkey, Hrest. reflexivity.
Qed.

(** C5. The constructor never looks at [username]: with no username and an
    API key, which is neither of the two credential shapes, it builds the
    client with the credentials [{username: null, apikey}] instead of throwing
    [Incomplete credentials]. *)
Theorem constructor_accepts_missing_username :
  exists client,
    new_MendixSdkClient (fun _ => NoCallback)
      VNull (VStr "364fbe6d") VUndefined VUndefined VUndefined VUndefined
    = inr client
    /\ credentials (_modelSdkClient client)
       = BackendCredentials VNull (VStr "364fbe6d").
Proof. eexists. split; reflexivity. Qed.

(** ** The error translator *)

(** C6. [rejectWithError] switches on [typeof (error)], which is ["object"] for
    every error object: whatever the class of the error, neither the
    [Response parsing error] nor the [Empty response error] message is
    produced, and the reason is the default one, [name: message. supportLink]. *)
Theorem rejectWithError_takes_the_default_case :
  forall (cls : error_class) (message : value),
    rejectWithError cls message
    = VStr ("Error: " ++ toString message ++ ". " ++ supportLink)
    /\ rejectWithError cls message
       <> VStr ("Response parsing error: " ++ toString message ++ ". " ++ supportLink)
    /\ rejectWithError cls message
       <> VStr ("Empty response error: " ++ toString message ++ ". " ++ supportLink).
Proof.
  intros cls message. repeat split; unfold rejectWithError; simpl; discriminate.
Qed.

Example rejectWithError_on_a_ParseError :
  rejectWithError ParseError (VStr "Unexpected close tag")
  = VStr "Error: Unexpected close tag. Please consult https://mxforum.mendix.com/".
Proof. reflexivity. Qed.

(** ** The properties on the sample environment *)

Lemma sample_running : reports (ext := sample_externals) "Running" (ok_response doc_running).
Proof. eexists. split; reflexivity. Defined.

Lemma awaitJobResult_resolves_on_completed_witness :
  let r := _awaitJobResult (ext := sample_externals) sample_client (VStr "J1")
             [ok_response doc_running; ok_response doc_running;
              ok_response doc_completed] in
  requests (trace r) = 3
  /\ (exists jobResult, out r = Resolved jobResult /\ result jobResult = VStr "app-42")
  /\ out (createNewApp (ext := sample_externals) sample_client (VStr "Foo") (VStr "desc")
            [ok_response doc_job_submitted; ok_response doc_running;
             ok_response doc_running; ok_response doc_completed])
     = Resolved {| Project_id := VStr "app-42"; Project_name := VStr "Foo" |}.
Proof.
  destruct (awaitJobResult_resolves_on_completed (ext := sample_externals)
              sample_client (VStr "J1")
              [ok_response doc_running; ok_response doc_running]
              (ok_response doc_completed) [] _
              (Forall_cons _ sample_running
                 (Forall_cons _ sample_running (Forall_nil _)))
              eq_refl eq_refl) as (H1 & H2 & _ & _ & _ & Hcaller).
  split; [exact H1|]. split.
  - eexists. split; [exact H2|reflexivity].
  - exact (Hcaller (ok_response doc_job_submitted) _ (VStr "Foo") (VStr "desc") eq_refl).
Defined.

Lemma awaitJobResult_rejects_on_failed_witness :
  let r := _awaitJobResult (ext := sample_externals) sample_client (VStr "J1")
             [ok_response doc_running; ok_response doc_failed] in
  out r = Rejected (VStr "No such revision") /\ requests (trace r) = 2.
Proof.
  destruct (awaitJobResult_rejects_on_failed (ext := sample_externals)
              sample_client (VStr "J1") [ok_response doc_running]
              (ok_response doc_failed) [] _ Project (fun _ => ret sample_project)
              (Forall_cons _ sample_running (Forall_nil _))
              eq_refl eq_refl) as (H1 & H2 & _).
  split; [exact H1|exact H2].
Defined.

Lemma fault_response_rejects_with_context_witness :
  submission_stages (ext := sample_externals)
    "Failed to create online working copy" (fault_response doc_fault)
  = Rejected (VStr "Failed to create online working copy: Project does not exist")
  /\ submission_stages (ext := sample_externals)
       "Failed to create online working copy" (fault_response doc_malformed)
     = Rejected (VErr ParseError (VErr PlainError (VStr "Unexpected close tag")))
  /\ submission_stages (ext := sample_externals)
       "Failed to create online working copy" (fault_response doc_blank)
     = Rejected assertion_error.
Proof.
  pose proof (fault_response_rejects_with_context (ext := sample_externals)
                "Failed to create online working copy" (fault_response doc_fault)
                eq_refl eq_refl eq_refl) as H1.
  pose proof (fault_response_rejects_with_context (ext := sample_externals)
                "Failed to create online working copy" (fault_response doc_malformed)
                eq_refl eq_refl eq_refl) as H2.
  pose proof (fault_response_rejects_with_context (ext := sample_externals)
                "Failed to create online working copy" (fault_response doc_blank)
                eq_refl eq_refl eq_refl) as H3.
  simpl in H1, H2, H3.
  split; [exact (proj2 (proj1 H1))|]. split; [exact (proj2 (proj1 H2))|].
  exact (proj2 (proj1 H3)).
Defined.

(** Scenario B of the specification, end to end. *)
Example createOnlineWorkingCopy_nonexistent_project :
  let r := createOnlineWorkingCopy (ext := sample_externals) sample_client
             sample_project None [fault_response doc_fault] in
  out r = Rejected (VStr "Failed to create online working copy: Project does not exist")
  /\ requests (trace r) = 1.
Proof. split; reflexivity. Qed.

(** A job submission followed by a completed job. *)
Example createNewApp_round_trip :
  out (createNewApp (ext := sample_externals) sample_client (VStr "Foo") (VStr "desc")
         [ok_response doc_job_submitted; ok_response doc_running;
          ok_response doc_completed])
  = Resolved {| Project_id := VStr "app-42"; Project_name := VStr "Foo" |}.
Proof. reflexivity. Qed.




(** A 200 response with a blank body: xml2js hands over no tree, the query
    throws, and the stage rejects with what was thrown, which is neither a
    replaced body, nor an [EmptyError], nor a [ParseError]. *)
Lemma result_extraction_counterexample :
  ~ result_extraction_as_specified sample_externals.
Proof.
  intros H.
  destruct (H "Failed to create new app" (ok_response doc_blank)
              eq_refl eq_refl eq_refl) as [[v Hout]|[[message Hout]|[message Hout]]];
    discriminate Hout.
Qed.

Lemma result_extraction_on_ok_witness :
  (exists message,
      submission_stages (ext := sample_externals) "Failed to create new app"
        (ok_response doc_empty_result)
      = Rejected (VErr EmptyError message))
  /\ submission_stages (ext := sample_externals) "Failed to create new app"
       (ok_response doc_job_submitted)
     = Resolved (set_entity (ok_response doc_job_submitted) (VStr "J1"))
  /\ submission_stages (ext := sample_externals) "Failed to create new app"
       (ok_response doc_blank)
     = Rejected assertion_error.
Proof.
  split; [|split].
  - exact (result_extraction_on_ok (ext := sample_externals)
             "Failed to create new app" (ok_response doc_empty_result)
             eq_refl eq_refl eq_refl).
  - exact (result_extraction_on_ok (ext := sample_externals)
             "Failed to create new app" (ok_response doc_job_submitted)
             eq_refl eq_refl eq_refl).
  - exact (result_extraction_on_ok (ext := sample_externals)
             "Failed to create new app" (ok_response doc_blank)
             eq_refl eq_refl eq_refl).
Defined.

Example result_extraction_failures :
  submission_stages (ext := sample_externals) "Failed to create new app"
    (ok_response doc_malformed)
  = Rejected (VErr ParseError (VErr PlainError (VStr "Unexpected close tag")))
  /\ submission_stages (ext := sample_externals) "Failed to create new app"
       (ok_response doc_no_result)
     = Rejected (VErr EmptyError
                   (VStr "Query $..Result[0] on undefined does not give any result")).
Proof. split; reflexivity. Qed.

Lemma commit_waits_for_close_witness :
  let failing := commit (ext := sample_externals) sample_client
                   (sample_working_copy (OnError (VStr "connection lost")))
                   VUndefined None [ok_response doc_job_submitted] in
  let closing := commit (ext := sample_externals) sample_client
                   (sample_working_copy (OnSuccess tt))
                   VUndefined None [ok_response doc_job_submitted] in
  (out failing = Rejected (VStr "connection lost") /\ requests (trace failing) = 0)
  /\ In EvCloseConnection (firstn 1 (trace closing)).
Proof.
  split.
  - destruct (commit_waits_for_close (ext := sample_externals) sample_client
                (sample_working_copy (OnError (VStr "connection lost")))
                VUndefined None [ok_response doc_job_submitted]) as [_ H].
    destruct (H _ eq_refl) as (H1 & H2 & _). split; assumption.
  - destruct (commit_waits_for_close (ext := sample_externals) sample_client
                (sample_working_copy (OnSuccess tt))
                VUndefined None [ok_response doc_job_submitted]) as [H _].
    exact (proj2 (H [EvCloseConnection] _ _ _ eq_refl)).
Defined.

(** Base revision -2 without a working copy: the reason is the one of the
    first check, not the one that names the revision. *)
Lemma low_base_revision_counterexample :
  ~ low_base_revision_is_named sample_externals.
Proof.
  intros H.
  pose proof (H sample_client None VNull (-2)%Z [ok_response doc_job_submitted]
                eq_refl) as Hout.
  discriminate Hout.
Qed.

Lemma small_integers_are_safe :
  safe_integer (-2) /\ safe_integer 3 /\ safe_integer 12.
Proof. unfold safe_integer, MAX_SAFE_INTEGER. repeat split; discriminate. Defined.

Lemma commitToTeamServer_rejects_low_base_revision_witness :
  let r := commitToTeamServer (ext := sample_externals) sample_client
             (Some (sample_working_copy (OnSuccess tt))) VNull (Some (Num (-2)))
             [ok_response doc_job_submitted] in
  requests (trace r) = 0
  /\ rest r = [ok_response doc_job_submitted]
  /\ out r = Rejected (VStr "Invalid base revision -2").
Proof.
  destruct (commitToTeamServer_rejects_low_base_revision (ext := sample_externals)
              sample_client (Some (sample_working_copy (OnSuccess tt)))
              VNull (-2) [ok_response doc_job_submitted] eq_refl
              (proj1 small_integers_are_safe))
    as (Htrace & Hrest & Hreason).
  cbv zeta. rewrite Htrace.
  split; [reflexivity|]. split; [exact Hrest|exact Hreason].
Defined.



Example parseInt_samples :
  parseInt (VStr "3") = Num 3
  /\ parseInt (VStr " 42 ") = Num 42
  /\ parseInt (VStr "0x1f") = Num 31
  /\ parseInt (VStr "abc") = NaN
  /\ parseInt VUndefined = NaN.
Proof. repeat split; reflexivity. Qed.

(** * Further properties of the client *)

Section Stages.

Context {ext : Externals}.

(** ** Status classification *)

Lemma parseAndQuery_settles xml query : _parseAndQuery xml query <> Pending.
Proof.
  unfold _parseAndQuery. destruct (parseString xml) as [err|tree]; [discriminate|].
  destruct (jsonpath_query tree query) as [message|matches]; [discriminate|].
  destruct (isEmpty (first matches)); discriminate.
Qed.

(** The classification stage lets a response through in one case only: no
    transport error, a status, a body, and status code 200; the response it
    resolves with is the one it received. *)
Theorem classification_resolves_iff :
  forall (errorMessage : string) (raw response : RawResponse),
    _createHttpErrorCodeInterceptor errorMessage raw = Resolved response
    <-> (truthy (error raw) = false
         /\ status raw = Some 200%Z
         /\ isEmpty (VStr (entity raw)) = false
         /\ response = raw).
Proof.
  intros errorMessage raw response. unfold _createHttpErrorCodeInterceptor.
  destruct (truthy (error raw)); [split; [discriminate|intros (H & _); discriminate]|].
  destruct (status raw) as [code|];
    [|split; [discriminate|intros (_ & H & _); discriminate]].
  destruct (isEmpty (VStr (entity raw)));
    [split; [discriminate|intros (_ & _ & H & _); discriminate]|].
  unfold HTTP_STATUS_OK_RESPONSE_CODE, HTTP_STATUS_WS_ERROR_RESPONSE_CODE.
  destruct (Z.eqb_spec code 200) as [->|Hne].
  - split.
    + intros H. injection H as <-. auto.
    + intros (_ & _ & _ & ->). reflexivity.
  - assert (Hcode : Some code <> Some 200%Z) by congruence.
    destruct (code =? 500)%Z.
    + pose proof (parseAndQuery_settles (entity raw) "$..faultstring[0]").
      destruct (_parseAndQuery (entity raw) "$..faultstring[0]");
        split; try discriminate; try contradiction;
        intros (_ & H' & _); contradiction.
    + split; [discriminate|intros (_ & H' & _); contradiction].
Qed.

(** A transport error wins over everything else in the response: whatever
    the status and the body, both interceptor chains reject with
    [Connection error: ] followed by the error, and a polling loop that
    receives such a response stops there. *)
Theorem transport_error_is_reported_first :
  forall (errorMessage : string) (raw : RawResponse) client (id : value)
         (wire : list RawResponse),
    truthy (error raw) = true ->
    let reason := VStr ("Connection error: " ++ toString (error raw)) in
    _createHttpErrorCodeInterceptor errorMessage raw = Rejected reason
    /\ submission_stages errorMessage raw = Rejected reason
    /\ status_stages raw = Rejected reason
    /\ _awaitJobResult client id (raw :: wire)
       = {| trace := poll_effects client id; rest := wire; out := Rejected reason |}.
Proof.
  intros errorMessage raw client id wire Herr reason.
  assert (Hc : forall ctx, _createHttpErrorCodeInterceptor ctx raw = Rejected reason).
  { intros ctx. unfold _createHttpErrorCodeInterceptor. rewrite Herr. reflexivity. }
  assert (Hs : status_stages raw = Rejected reason).
  { unfold status_stages. rewrite Hc. reflexivity. }
  split; [apply Hc|]. split; [unfold submission_stages; rewrite Hc; reflexivity|].
  split; [exact Hs|]. simpl. rewrite Hs. reflexivity.
Qed.

(** A response without status, or without body, is an invalid response even
    when its status is 500: the body of a fault is only parsed when there is
    one. *)
Theorem empty_response_is_invalid :
  forall (errorMessage : string) (raw : RawResponse),
    truthy (error raw) = false ->
    status raw = None \/ entity raw = "" ->
    _createHttpErrorCodeInterceptor errorMessage raw
    = Rejected (VStr "Error: invalid HTTP response")
    /\ submission_stages errorMessage raw = Rejected (VStr "Error: invalid HTTP response")
    /\ status_stages raw = Rejected (VStr "Error: invalid HTTP response").
Proof.
  intros errorMessage raw Herr Hempty.
  assert (Hc : forall ctx, _createHttpErrorCodeInterceptor ctx raw
                           = Rejected (VStr "Error: invalid HTTP response")).
  { intros ctx. unfold _createHttpErrorCodeInterceptor. rewrite Herr.
    destruct (status raw) as [code|]; [|reflexivity].
    destruct Hempty as [H|H]; [discriminate|]. rewrite H. reflexivity. }
  split; [apply Hc|].
  split; [unfold submission_stages|unfold status_stages]; rewrite Hc; reflexivity.
Qed.

(** Any status code other than 200 and 500, on a response with a body, is
    reported with the code, the status message of the server and the advice
    to retry. *)
Theorem unexpected_status_is_reported :
  forall (errorMessage : string) (raw : RawResponse) (code : Z),
    truthy (error raw) = false ->
    status raw = Some code ->
    entity raw <> "" ->
    code <> 200%Z ->
    code <> 500%Z ->
    let reason :=
      VStr ("Unexpected HTTP response code: " ++ decimal code ++ " "
            ++ toString (statusMessage raw)
            ++ ". Please retry after a few minutes. If the problem persists, please consult https://mxforum.mendix.com") in
    _createHttpErrorCodeInterceptor errorMessage raw = Rejected reason
    /\ submission_stages errorMessage raw = Rejected reason
    /\ status_stages raw = Rejected reason.
Proof.
  intros errorMessage raw code Herr Hst Hbody H200 H500 reason.
  assert (Hc : forall ctx, _createHttpErrorCodeInterceptor ctx raw = Rejected reason).
  { intros ctx. unfold _createHttpErrorCodeInterceptor. rewrite Herr, Hst.
    simpl isEmpty. destruct (String.eqb_spec (entity raw) ""); [contradiction|].
    unfold HTTP_STATUS_OK_RESPONSE_CODE, HTTP_STATUS_WS_ERROR_RESPONSE_CODE.
    destruct (Z.eqb_spec code 200); [contradiction|].
    destruct (Z.eqb_spec code 500); [contradiction|]. reflexivity. }
  split; [apply Hc|].
  split; [unfold submission_stages|unfold status_stages]; rewrite Hc; reflexivity.
Qed.

(** Behind the classification stage the emptiness checks of [_parseResult]
    and [_parseJobStatus] never fire: a response that was let through has a
    body, so both stages go straight to parsing it. *)
Theorem entity_missing_is_unreachable :
  forall (errorMessage : string) (raw response : RawResponse),
    _createHttpErrorCodeInterceptor errorMessage raw = Resolved response ->
    isEmpty (VStr (entity response)) = false
    /\ _parseResult response
       = then_ (_parseAndQuery (entity response) "$..Result[0]")
               (fun result => Resolved (set_entity response result))
    /\ _parseResult response <> Rejected (VStr "Error: HTTP response entity missing")
    /\ _parseJobStatus response
       = match parseString (entity response) with
         | inl err => Rejected err
         | inr parsed =>
             match _parseJobResult parsed with
             | inl message => Rejected (VAssertionError message)
             | inr jobResult => Resolved (set_entity response jobResult)
             end
         end.
Proof.
  intros errorMessage raw response H.
  apply classification_resolves_iff in H. destruct H as (_ & _ & Hbody & ->).
  split; [exact Hbody|].
  assert (Hp : _parseResult raw
               = then_ (_parseAndQuery (entity raw) "$..Result[0]")
                       (fun result => Resolved (set_entity raw result))).
  { unfold _parseResult. rewrite Hbody. reflexivity. }
  split; [exact Hp|]. split.
  - rewrite Hp. unfold _parseAndQuery.
    destruct (parseString (entity raw)) as [err|tree]; simpl; [discriminate|].
    destruct (jsonpath_query tree "$..Result[0]") as [message|matches];
      simpl; [discriminate|].
    destruct (isEmpty (first matches)); simpl; discriminate.
  - unfold _parseJobStatus. rewrite Hbody. reflexivity.
Qed.

(** What a submitting client resolves with: the response of the server, with
    status 200, and as entity the first match of [$..Result[0]] in its body,
    which is never empty; so the job id handed to the polling loop is never
    empty either. *)
Theorem submission_resolves_with_a_result :
  forall (errorMessage : string) (raw : RawResponse) (response : Response value),
    submission_stages errorMessage raw = Resolved response ->
    isEmpty (entity response) = false
    /\ status response = Some 200%Z
    /\ error response = error raw
    /\ statusMessage response = statusMessage raw
    /\ exists tree matches,
         parseString (entity raw) = inr tree
         /\ jsonpath_query tree "$..Result[0]" = inr matches
         /\ entity response = first matches.
Proof.
  intros errorMessage raw response H. unfold submission_stages in H.
  destruct (_createHttpErrorCodeInterceptor errorMessage raw) as [r| |] eqn:Hc;
    simpl in H; try discriminate.
  apply classification_resolves_iff in Hc. destruct Hc as (_ & Hst & Hbody & ->).
  unfold _parseResult in H. rewrite Hbody in H. unfold _parseAndQuery in H.
  destruct (parseString (entity raw)) as [err|tree]; simpl in H; [discriminate|].
  destruct (jsonpath_query tree "$..Result[0]") as [message|matches] eqn:Hq;
    simpl in H; [discriminate|].
  destruct (isEmpty (first matches)) eqn:He; simpl in H; [discriminate|].
  injection H as <-. simpl. repeat split; try assumption.
  exists tree, matches. repeat split. exact Hq.
Qed.

(** A body that does not parse is reported differently by the two chains: the
    submitting chain wraps the parser's error in a [ParseError], the
    job-status chain rejects with the parser's error itself. *)
Theorem parse_errors_of_the_two_chains :
  forall (errorMessage : string) (raw : RawResponse) (err : value),
    truthy (error raw) = false ->
    status raw = Some 200%Z ->
    entity raw <> "" ->
    parseString (entity raw) = inl err ->
    submission_stages errorMessage raw = Rejected (VErr ParseError err)
    /\ status_stages raw = Rejected err.
Proof.
  intros errorMessage raw err Herr Hst Hbody Hparse.
  assert (Hb : isEmpty (VStr (entity raw)) = false).
  { simpl. destruct (String.eqb_spec (entity raw) ""); [contradiction|reflexivity]. }
  unfold submission_stages, status_stages.
  rewrite !(classification_of_ok _ _ Herr Hst Hb). simpl.
  unfold _parseResult, _parseJobStatus, _parseAndQuery. rewrite Hb, Hparse.
  split; reflexivity.
Qed.

End Stages.

Section Polling.

Context {ext : Externals}.

Lemma JobState_test_spec (v : value) (s : JobState) :
  strict_eq_number (JobState_lookup v) (JobState_number s) = true
  <-> toString v = JobState_name s.
Proof.
  unfold JobState_lookup.
  destruct (String.eqb_spec (toString v) "Running") as [E|NR].
  { rewrite E. destruct s; simpl; split; intro H; congruence. }
  destruct (String.eqb_spec (toString v) "Completed") as [E|NC].
  { rewrite E. destruct s; simpl; split; intro H; congruence. }
  destruct (String.eqb_spec (toString v) "Failed") as [E|NF].
  { rewrite E. destruct s; simpl; split; intro H; congruence. }
  assert (Hno : toString v <> JobState_name s) by (destruct s; assumption).
  destruct (toString v =? "0")%string;
    [|destruct (toString v =? "1")%string;
      [|destruct (toString v =? "2")%string]];
    simpl; split; intro H; congruence.
Qed.

Lemma classification_settles errorMessage raw :
  _createHttpErrorCodeInterceptor errorMessage raw <> Pending.
Proof.
  unfold _createHttpErrorCodeInterceptor.
  destruct (truthy (error raw)); [discriminate|].
  destruct (status raw) as [code|]; [|discriminate].
  destruct (isEmpty (VStr (entity raw))); [discriminate|].
  destruct (code =? HTTP_STATUS_OK_RESPONSE_CODE)%Z; [discriminate|].
  destruct (code =? HTTP_STATUS_WS_ERROR_RESPONSE_CODE)%Z; [|discriminate].
  pose proof (parseAndQuery_settles (entity raw) "$..faultstring[0]").
  destruct (_parseAndQuery (entity raw) "$..faultstring[0]");
    [discriminate|discriminate|contradiction].
Qed.

Lemma status_stages_settles raw : status_stages raw <> Pending.
Proof.
  unfold status_stages.
  pose proof (classification_settles "Error when retrieving job status" raw).
  destruct (_createHttpErrorCodeInterceptor "Error when retrieving job status" raw)
    as [response| |]; simpl; [|discriminate|contradiction].
  unfold _parseJobStatus. destruct (isEmpty _); [discriminate|].
  destruct (parseString (entity response)) as [err|tree]; [discriminate|].
  destruct (_parseJobResult tree); discriminate.
Qed.

Lemma submission_stages_settles errorMessage raw :
  submission_stages errorMessage raw <> Pending.
Proof.
  unfold submission_stages.
  pose proof (classification_settles errorMessage raw).
  destruct (_createHttpErrorCodeInterceptor errorMessage raw)
    as [response| |]; simpl; [|discriminate|contradiction].
  unfold _parseResult. destruct (isEmpty _); [discriminate|].
  pose proof (parseAndQuery_settles (entity response) "$..Result[0]").
  destruct (_parseAndQuery (entity response) "$..Result[0]");
    simpl; [discriminate|discriminate|contradiction].
Qed.

Lemma awaitJobResult_round client id raw wire : round client id raw wire.
Proof.
  pose proof (status_stages_settles raw) as Hs.
  destruct (status_stages raw) as [response|reason|] eqn:Hst; [| |contradiction].
  - destruct (strict_eq_number (JobState_lookup (state (entity response)))
                (JobState_number Completed)) eqn:Hc.
    + apply (round_resolves _ _ _ _ response Hst).
      * apply (JobState_test_spec _ Completed). exact Hc.
      * simpl. rewrite Hst. simpl in Hc. rewrite Hc. reflexivity.
    + destruct (strict_eq_number (JobState_lookup (state (entity response)))
                  (JobState_number Failed)) eqn:Hf.
      * apply (round_fails _ _ _ _ response Hst).
        -- apply (JobState_test_spec _ Failed). exact Hf.
        -- simpl. rewrite Hst. simpl in Hc, Hf. rewrite Hc, Hf. reflexivity.
      * apply (round_again _ _ _ _ response Hst).
        -- intros E. apply (JobState_test_spec _ Completed) in E. congruence.
        -- intros E. apply (JobState_test_spec _ Failed) in E. congruence.
        -- simpl. rewrite Hst. simpl in Hc, Hf. rewrite Hc, Hf. reflexivity.
  - apply (round_aborts _ _ _ _ reason Hst). simpl. rewrite Hst. reflexivity.
Qed.

Lemma timeouts_app (t1 t2 : list event) :
  timeouts (t1 ++ t2) = timeouts t1 + timeouts t2.
Proof.
  induction t1 as [|e t1 IH]; simpl; [reflexivity|].
  destruct e; simpl; rewrite IH; reflexivity.
Qed.

(** The state test of the loop goes by name: [JobState[v] === JobState.s]
    holds exactly when [v] prints as the name of [s]. The enum object maps each
    name to its number and each number back to its name, so a state given by
    its number is not taken for that state. *)
Theorem JobState_test_is_by_name :
  forall (v : value) (s : JobState),
    (strict_eq_number (JobState_lookup v) (JobState_number s) = true
     <-> toString v = JobState_name s)
    /\ JobState_lookup (VStr (JobState_name s)) = VNum (Num (JobState_number s))
    /\ JobState_lookup (VNum (Num (JobState_number s))) = VStr (JobState_name s)
    /\ strict_eq_number (JobState_lookup (VNum (Num (JobState_number s))))
         (JobState_number s) = false.
Proof.
  intros v s. split; [apply JobState_test_spec|].
  destruct s; repeat split; reflexivity.
Qed.

(** An error on a status response ends the loop at once: after any number of
    [Running] responses, a response that the job-status chain rejects makes
    the loop reject with the same reason, and the responses behind it are
    left alone. *)
Theorem polling_stops_at_the_first_error :
  forall client (id : value) (running : list RawResponse) (bad : RawResponse)
         (wire : list RawResponse) (reason : value),
    Forall (reports "Running") running ->
    status_stages bad = Rejected reason ->
    let r := _awaitJobResult client id (running ++ bad :: wire) in
    out r = Rejected reason
    /\ requests (trace r) = S (length running)
    /\ rest r = wire.
Proof.
  intros client id running bad wire reason Hrun Hbad r. subst r.
  destruct (awaitJobResult_running_prefix client id running (bad :: wire) Hrun)
    as (H1 & H2 & H3).
  assert (Hstep : _awaitJobResult client id (bad :: wire)
                  = {| trace := poll_effects client id; rest := wire;
                       out := Rejected reason |}).
  { simpl. rewrite Hbad. reflexivity. }
  rewrite Hstep in H1, H2, H3. simpl in H1, H2, H3.
  split; [assumption|]. split; [lia|assumption].
Qed.

(** The effects of a polling loop are rounds of one 1000 ms timer followed by
    one status request, nothing else: as many timers as requests, at least
    one round, and at most one round more than there are responses. *)
Theorem polling_trace_is_timer_then_request :
  forall client (id : value) (wire : list RawResponse),
    let r := _awaitJobResult client id wire in
    trace r = concat (repeat (poll_effects client id) (requests (trace r)))
    /\ timeouts (trace r) = requests (trace r)
    /\ 1 <= requests (trace r) <= S (length wire).
Proof.
  intros client id wire. cbv zeta.
  induction wire as [|raw wire IH]; [simpl; repeat split; lia|].
  destruct (awaitJobResult_round client id raw wire) as [? _ _ E|? _ _ E|? _ E|? _ _ _ E];
    rewrite E; try (simpl; repeat split; lia).
  destruct IH as (IH1 & IH2 & IH3).
  rewrite requests_after. unfold after; cbn [trace].
  rewrite timeouts_app.
  change (requests (poll_effects client id)) with 1.
  change (timeouts (poll_effects client id)) with 1.
  cbn [Nat.add repeat concat]. rewrite <- IH1, IH2. simpl length.
  repeat split; lia.
Qed.

(** Polling is sequential. A loop that has settled has issued exactly one
    request per response it consumed; a loop that has not settled has consumed
    every response and has exactly one request outstanding. *)
Theorem polling_is_sequential :
  forall client (id : value) (wire : list RawResponse),
    let r := _awaitJobResult client id wire in
    match out r with
    | Pending => rest r = [] /\ requests (trace r) = S (length wire)
    | _ => requests (trace r) + length (rest r) = length wire
    end.
Proof.
  intros client id wire. cbv zeta.
  induction wire as [|raw wire IH]; [simpl; auto|].
  destruct (awaitJobResult_round client id raw wire) as [? _ _ E|? _ _ E|? _ E|? _ _ _ E];
    rewrite E; try (simpl; lia).
  rewrite requests_after. unfold after; cbn [out rest].
  change (requests (poll_effects client id)) with 1.
  destruct (out (_awaitJobResult client id wire)); simpl length.
  - lia.
  - lia.
  - destruct IH as [-> ->]. split; [reflexivity|lia].
Qed.

Lemma awaitJobResult_outcome :
  forall client (id : value) (wire : list RawResponse),
    match out (_awaitJobResult client id wire) with
    | Resolved jobResult =>
        toString (state jobResult) = "Completed"
        /\ exists raw response,
             In raw wire /\ status_stages raw = Resolved response
             /\ entity response = jobResult
    | Rejected reason =>
        exists raw,
          In raw wire
          /\ (status_stages raw = Rejected reason
              \/ exists response,
                   status_stages raw = Resolved response
                   /\ toString (state (entity response)) = "Failed"
                   /\ errorMessage (entity response) = reason)
    | Pending => True
    end.
Proof.
  intros client id wire.
  induction wire as [|raw wire IH]; [exact I|].
  destruct (awaitJobResult_round client id raw wire)
    as [response Hst Hc E|response Hst Hf E|reason Hst E|response _ _ _ E];
    rewrite E; cbn [out after].
  - split; [exact Hc|]. exists raw, response. simpl. auto.
  - exists raw. split; [simpl; auto|]. right. exists response. auto.
  - exists raw. simpl. auto.
  - destruct (out (_awaitJobResult client id wire)) as [jr|reason|]; [| |exact I].
    + destruct IH as (Hc & raw' & response' & Hin & H1 & H2).
      split; [exact Hc|]. exists raw', response'. simpl. auto.
    + destruct IH as (raw' & Hin & H). exists raw'. simpl. auto.
Qed.

End Polling.

Section PollingOutcome.

Context {ext : Externals}.

(** Where the outcome of a polling loop comes from: the last response it
    consumed. The loop resolves only with the job result of a response that
    was let through and whose state prints as [Completed]; it rejects only
    with the reason the job-status chain gave for that response, or with the
    [errorMessage] of a response whose state prints as [Failed]; and it stays
    unsettled only after consuming every response. *)
Theorem polling_outcome_comes_from_the_last_response :
  forall client (id : value) (wire : list RawResponse),
    let r := _awaitJobResult client id wire in
    exists consumed,
      wire = (consumed ++ rest r)%list
      /\ match out r with
         | Resolved jobResult =>
             exists before raw response,
               consumed = (before ++ [raw])%list
               /\ status_stages raw = Resolved response
               /\ entity response = jobResult
               /\ toString (state jobResult) = "Completed"
         | Rejected reason =>
             exists before raw,
               consumed = (before ++ [raw])%list
               /\ (status_stages raw = Rejected reason
                   \/ exists response,
                        status_stages raw = Resolved response
                        /\ toString (state (entity response)) = "Failed"
                        /\ errorMessage (entity response) = reason)
         | Pending => consumed = wire
         end.
Proof.
  intros client id wire. cbv zeta.
  induction wire as [|raw wire IH]; [exists []; simpl; auto|].
  destruct (awaitJobResult_round client id raw wire)
    as [response Hst Hc E|response Hst Hf E|reason Hst E|response _ _ _ E];
    rewrite E; cbn [out rest after].
  - exists [raw]. split; [reflexivity|]. exists [], raw, response. auto.
  - exists [raw]. split; [reflexivity|]. exists [], raw. split; [reflexivity|].
    right. exists response. auto.
  - exists [raw]. split; [reflexivity|]. exists [], raw. auto.
  - destruct IH as (consumed & Hw & IH). exists (raw :: consumed).
    split; [simpl; congruence|].
    destruct (out (_awaitJobResult client id wire)) as [jr|reason|].
    + destruct IH as (before & raw' & response' & -> & H).
      exists (raw :: before), raw', response'. auto.
    + destruct IH as (before & raw' & -> & H).
      exists (raw :: before), raw'. auto.
    + congruence.
Qed.

End PollingOutcome.

Section Operations.

Context {ext : Externals}.

(** ** Sequencing *)

Lemma send_trace {A : Type} prefix request (stages : RawResponse -> outcome A) wire :
  trace (send prefix request stages wire) = [EvRequest prefix request].
Proof. destruct wire; reflexivity. Qed.

Lemma bind_send_rejected {A B : Type} prefix request
    (stages : RawResponse -> outcome A) (k : A -> prog B) raw wire reason :
  stages raw = Rejected reason ->
  bind (send prefix request stages) k (raw :: wire)
  = {| trace := [EvRequest prefix request]; rest := wire; out := Rejected reason |}.
Proof. intros H. unfold bind, send. cbn [out trace rest]. rewrite H. reflexivity. Qed.

Lemma bind_send_resolved {A B : Type} prefix request
    (stages : RawResponse -> outcome A) (k : A -> prog B) raw wire a :
  stages raw = Resolved a ->
  bind (send prefix request stages) k (raw :: wire)
  = after [EvRequest prefix request] (k a wire).
Proof. intros H. unfold bind, send. cbn [out trace rest]. rewrite H. reflexivity. Qed.

Lemma bind_resolved {A B : Type} (p : prog A) (f : A -> prog B) wire b :
  out (bind p f wire) = Resolved b ->
  exists a,
    out (p wire) = Resolved a
    /\ out (f a (rest (p wire))) = Resolved b
    /\ trace (bind p f wire) = (trace (p wire) ++ trace (f a (rest (p wire))))%list
    /\ rest (bind p f wire) = rest (f a (rest (p wire))).
Proof.
  unfold bind. destruct (out (p wire)) as [a| |] eqn:Hp; cbn [out]; try discriminate.
  intros H. exists a. auto.
Qed.

Lemma bind_trace_Forall {A B : Type} (P : event -> Prop) (p : prog A)
    (f : A -> prog B) wire :
  Forall P (trace (p wire)) ->
  (forall a w, Forall P (trace (f a w))) ->
  Forall P (trace (bind p f wire)).
Proof.
  intros Hp Hf. unfold bind. destruct (out (p wire)); cbn [trace after]; auto.
  apply Forall_app. auto.
Qed.

(** A property of events that holds of the timers and requests of a client
    holds of everything a polling loop does. *)
Lemma awaitJobResult_trace_Forall (P : event -> Prop) client id wire :
  Forall P (poll_effects client id) ->
  Forall P (trace (_awaitJobResult client id wire)).
Proof.
  intros HP. induction wire as [|raw wire IH]; [exact HP|].
  destruct (awaitJobResult_round client id raw wire) as [? _ _ E|? _ _ E|? _ E|? _ _ _ E];
    rewrite E; cbn [trace after]; auto.
  apply Forall_app. auto.
Qed.

Lemma commitToTeamServer_trace_Forall (P : event -> Prop) client workingCopy
    branchName baseRevision wire :
  (forall id, Forall P (poll_effects client id)) ->
  (forall tpl data,
      P (EvRequest (_projectsApiEndpoint client) (_createRequestContent tpl data))) ->
  Forall P (trace (commitToTeamServer client workingCopy branchName baseRevision wire)).
Proof.
  intros Hpoll Hreq. unfold commitToTeamServer.
  destruct workingCopy as [wc|]; [|constructor].
  destruct (OnlineWorkingCopy_project wc) as [project|]; [|constructor].
  destruct (below_head _); [constructor|].
  apply bind_trace_Forall.
  - rewrite send_trace. constructor; [apply Hreq|constructor].
  - intros response w. apply bind_trace_Forall.
    + apply awaitJobResult_trace_Forall, Hpoll.
    + intros jr w'. constructor.
Qed.

Lemma service_request_poll client id :
  Forall (service_request client) (poll_effects client id).
Proof. repeat constructor. Qed.

Lemma closings_none (t : list event) :
  Forall (fun e => e <> EvCloseConnection) t -> closings t = 0.
Proof.
  induction 1 as [|e t He _ IH]; [reflexivity|].
  destruct e; simpl; try assumption. contradiction.
Qed.

(** ** What the operations send *)

(** Every request of every operation is a POST to the fixed service path
    under the client's projects endpoint, with the XML content type: the
    operations differ in the payload only. *)
Theorem every_request_is_a_service_post :
  forall client (wire : list RawResponse),
    (forall id, Forall (service_request client) (trace (_awaitJobResult client id wire)))
    /\ (forall projectName projectSummary,
          Forall (service_request client)
            (trace (createNewApp client projectName projectSummary wire)))
    /\ (forall project revision,
          Forall (service_request client)
            (trace (createOnlineWorkingCopy client project revision wire)))
    /\ (forall workingCopy branchName baseRevision,
          Forall (service_request client)
            (trace (commitToTeamServer client workingCopy branchName baseRevision wire)))
    /\ (forall workingCopy branchName baseRevision,
          Forall (service_request client)
            (trace (commit client workingCopy branchName baseRevision wire))).
Proof.
  intros client wire.
  assert (Hreq : forall tpl data,
             service_request client
               (EvRequest (_projectsApiEndpoint client) (_createRequestContent tpl data))).
  { intros tpl data. simpl. auto. }
  assert (Hcommit : forall workingCopy branchName baseRevision w,
             Forall (service_request client)
               (trace (commitToTeamServer client workingCopy branchName baseRevision w))).
  { intros. apply commitToTeamServer_trace_Forall;
      [intros id; apply service_request_poll|exact Hreq]. }
  split; [intros id; apply awaitJobResult_trace_Forall, service_request_poll|].
  split; [|split; [|split]].
  - intros projectName projectSummary. unfold createNewApp.
    apply bind_trace_Forall.
    + rewrite send_trace. constructor; [apply Hreq|constructor].
    + intros response w. apply bind_trace_Forall.
      * apply awaitJobResult_trace_Forall, service_request_poll.
      * intros jr w'. constructor.
  - intros project revision. unfold createOnlineWorkingCopy.
    apply bind_trace_Forall.
    + rewrite send_trace. constructor; [apply Hreq|constructor].
    + intros response w. apply bind_trace_Forall.
      * apply awaitJobResult_trace_Forall, service_request_poll.
      * intros jr w'. repeat constructor.
  - intros. apply Hcommit.
  - intros workingCopy branchName baseRevision. unfold commit.
    destruct (closeConnection _); cbn [trace after]; repeat constructor.
    apply Hcommit.
Qed.

(** A submission that fails is the end of the operation: one request, no
    timer, no poll, and the reason of the interceptor chain as it is. *)
Theorem failed_submission_never_polls :
  forall client (raw : RawResponse) (wire : list RawResponse),
    (forall projectName projectSummary reason,
        submission_stages "Failed to create new app" raw = Rejected reason ->
        let r := createNewApp client projectName projectSummary (raw :: wire) in
        out r = Rejected reason /\ length (trace r) = 1 /\ requests (trace r) = 1
        /\ rest r = wire)
    /\ (forall project revision reason,
          submission_stages "Failed to create online working copy" raw
          = Rejected reason ->
          let r := createOnlineWorkingCopy client project revision (raw :: wire) in
          out r = Rejected reason /\ length (trace r) = 1 /\ requests (trace r) = 1
          /\ rest r = wire)
    /\ (forall workingCopy project branchName baseRevision reason,
          OnlineWorkingCopy_project workingCopy = Some project ->
          below_head (match baseRevision with Some n => n | None => Num (-1) end)
          = false ->
          submission_stages "Failed to commit to team server" raw = Rejected reason ->
          let r := commitToTeamServer client (Some workingCopy) branchName
                     baseRevision (raw :: wire) in
          out r = Rejected reason /\ length (trace r) = 1 /\ requests (trace r) = 1
          /\ rest r = wire).
Proof.
  intros client raw wire. split; [|split].
  - intros projectName projectSummary reason H r. subst r. unfold createNewApp.
    rewrite (bind_send_rejected _ _ _ _ _ _ _ H). simpl. auto.
  - intros project revision reason H r. subst r. unfold createOnlineWorkingCopy.
    rewrite (bind_send_rejected _ _ _ _ _ _ _ H). simpl. auto.
  - intros workingCopy project branchName baseRevision reason Hp Hb H r. subst r.
    unfold commitToTeamServer. rewrite Hp, Hb.
    rewrite (bind_send_rejected _ _ _ _ _ _ _ H). simpl. auto.
Qed.

(** ** Committing *)

(** Without a working copy, or on a working copy whose branch has no project,
    [commitToTeamServer] is rejected on the spot, whatever the base revision:
    this check comes before the one on the base revision. *)
Theorem commitToTeamServer_needs_a_project :
  forall client (workingCopy : option OnlineWorkingCopy) (branchName : value)
         (baseRevision : option number) (wire : list RawResponse),
    match workingCopy with
    | Some wc => OnlineWorkingCopy_project wc = None
    | None => True
    end ->
    commitToTeamServer client workingCopy branchName baseRevision wire
    = {| trace := []; rest := wire;
         out := Rejected
                  (VStr "Working copy is empty or does not contain referral to project") |}.
Proof.
  intros client workingCopy branchName baseRevision wire H.
  unfold commitToTeamServer. destruct workingCopy as [wc|]; [|reflexivity].
  rewrite H. reflexivity.
Qed.

(** [commit] calls [closeConnection] exactly once, before anything else,
    whatever happens afterwards. *)
Theorem commit_closes_exactly_once :
  forall client (workingCopy : OnlineWorkingCopy) (branchName : value)
         (baseRevision : option number) (wire : list RawResponse),
    let r := commit client workingCopy branchName baseRevision wire in
    (exists t, trace r = EvCloseConnection :: t)
    /\ closings (trace r) = 1.
Proof.
  intros client workingCopy branchName baseRevision wire. cbv zeta. unfold commit.
  destruct (closeConnection _); cbn [trace after app closings];
    (split; [eexists; reflexivity|]); try reflexivity.
  f_equal. apply closings_none.
  apply commitToTeamServer_trace_Forall.
  - intros id. repeat constructor; discriminate.
  - intros; discriminate.
Qed.


End Operations.

Section Outcomes.

Context {ext : Externals}.

Lemma awaitJobResult_requests_pos client id wire :
  1 <= requests (trace (_awaitJobResult client id wire)).
Proof.
  destruct wire as [|raw wire]; [simpl; lia|].
  destruct (awaitJobResult_round client id raw wire) as [? _ _ E|? _ _ E|? _ E|? _ _ _ E];
    rewrite E; try rewrite requests_after; simpl; lia.
Qed.

(** The shape shared by the three operations: submit, then poll with the job
    id the submission gave, then [k]. If the whole resolves, each step did. *)
Lemma submit_then_poll_resolved {B : Type} client errorMessage request
    (k : JobResult -> prog B) wire b :
  out (bind (send (_projectsApiEndpoint client) request (submission_stages errorMessage))
         (fun response => bind (_awaitJobResult client (entity response)) k) wire)
  = Resolved b ->
  exists submission wire' submitted jobResult,
    wire = submission :: wire'
    /\ submission_stages errorMessage submission = Resolved submitted
    /\ out (_awaitJobResult client (entity submitted) wire') = Resolved jobResult
    /\ out (k jobResult (rest (_awaitJobResult client (entity submitted) wire')))
       = Resolved b
    /\ trace (bind (send (_projectsApiEndpoint client) request
                      (submission_stages errorMessage))
                (fun response => bind (_awaitJobResult client (entity response)) k)
                wire)
       = (EvRequest (_projectsApiEndpoint client) request
            :: trace (_awaitJobResult client (entity submitted) wire')
            ++ trace (k jobResult
                        (rest (_awaitJobResult client (entity submitted) wire'))))%list.
Proof.
  destruct wire as [|submission wire']; [discriminate|].
  destruct (submission_stages errorMessage submission) as [submitted|reason|] eqn:Hs.
  - rewrite (bind_send_resolved _ _ _ _ _ _ _ Hs). cbn [out trace after app].
    intros H. apply bind_resolved in H. destruct H as (jr & H1 & H2 & H3 & _).
    exists submission, wire', submitted, jr. rewrite H3. auto.
  - rewrite (bind_send_rejected _ _ _ _ _ _ _ Hs). discriminate.
  - destruct (submission_stages_settles _ _ Hs).
Qed.

Lemma openings_app (t1 t2 : list event) :
  openings (t1 ++ t2) = openings t1 + openings t2.
Proof.
  induction t1 as [|e t1 IH]; simpl; [reflexivity|].
  destruct e; simpl; rewrite IH; reflexivity.
Qed.

Lemma openings_none (t : list event) :
  Forall (fun e => forall id, e <> EvOpenWorkingCopy id) t -> openings t = 0.
Proof.
  induction 1 as [|e t He _ IH]; [reflexivity|].
  destruct e; simpl; try assumption. destruct (He workingCopyId). reflexivity.
Qed.

Lemma awaitJobResult_never_opens client id wire :
  openings (trace (_awaitJobResult client id wire)) = 0.
Proof.
  apply openings_none, awaitJobResult_trace_Forall.
  repeat constructor; discriminate.
Qed.

(** ** What the operations resolve with *)

(** [createNewApp] resolves only after a submission that the submitting chain
    accepted and a status response, behind it on the wire, that reported
    [Completed]; the project it resolves with has the name that was asked for
    and the result of that job as its id. At least two requests were
    needed. *)
Theorem createNewApp_resolves_with_the_job_result :
  forall client (projectName projectSummary : value) (wire : list RawResponse)
         (project : Project),
    let r := createNewApp client projectName projectSummary wire in
    out r = Resolved project ->
    Project_name project = projectName
    /\ 2 <= requests (trace r)
    /\ exists submission wire' submitted raw response,
         wire = submission :: wire'
         /\ submission_stages "Failed to create new app" submission
            = Resolved submitted
         /\ out (_awaitJobResult client (entity submitted) wire')
            = Resolved (entity response)
         /\ In raw wire'
         /\ status_stages raw = Resolved response
         /\ toString (state (entity response)) = "Completed"
         /\ Project_id project = result (entity response).
Proof.
  intros client projectName projectSummary wire project r H. subst r.
  unfold createNewApp in *.
  apply submit_then_poll_resolved in H.
  destruct H as (submission & wire' & submitted & jr & -> & Hs & Hjr & Hk & ->).
  injection Hk as <-.
  pose proof (awaitJobResult_outcome client (entity submitted) wire') as Ho.
  rewrite Hjr in Ho. destruct Ho as (Hc & raw & response & Hin & Hst & <-).
  split; [reflexivity|]. split.
  - cbn [requests]. rewrite requests_app.
    pose proof (awaitJobResult_requests_pos client (entity submitted) wire'). lia.
  - exists submission, wire', submitted, raw, response. auto 10.
Qed.

(** [commitToTeamServer] resolves only for a working copy with a project and a
    base revision that is not below -1, after a job that reported
    [Completed]; the revision it resolves with is on the branch that was asked
    for ([null] when none was given), in the project of the working copy, and
    its number is [parseInt] of the job's result. *)
Theorem commitToTeamServer_resolves_with_the_revision :
  forall client (workingCopy : option OnlineWorkingCopy) (branchName : value)
         (baseRevision : option number) (wire : list RawResponse)
         (revision : Revision),
    out (commitToTeamServer client workingCopy branchName baseRevision wire)
    = Resolved revision ->
    exists wc project submission wire' raw response,
      workingCopy = Some wc
      /\ OnlineWorkingCopy_project wc = Some project
      /\ below_head (match baseRevision with Some n => n | None => Num (-1) end)
         = false
      /\ wire = submission :: wire'
      /\ In raw wire'
      /\ status_stages raw = Resolved response
      /\ toString (state (entity response)) = "Completed"
      /\ revision
         = {| Revision_num := parseInt (result (entity response));
              Revision_branch :=
                {| Branch_project := Some project;
                   Branch_name := match branchName with
                                  | VUndefined => VNull
                                  | _ => branchName
                                  end |} |}.
Proof.
  intros client workingCopy branchName baseRevision wire revision H.
  unfold commitToTeamServer in H.
  destruct workingCopy as [wc|]; [|discriminate].
  destruct (OnlineWorkingCopy_project wc) as [project|] eqn:Hp; [|discriminate].
  destruct (below_head _) eqn:Hb; [discriminate|].
  apply submit_then_poll_resolved in H.
  destruct H as (submission & wire' & submitted & jr & -> & Hs & Hjr & Hk & _).
  cbn [out] in Hk. unfold revision_of_job in Hk. cbn [loose_eq_null] in Hk.
  injection Hk as <-.
  pose proof (awaitJobResult_outcome client (entity submitted) wire') as Ho.
  rewrite Hjr in Ho. destruct Ho as (Hc & raw & response & Hin & Hst & <-).
  exists wc, project, submission, wire', raw, response.
  repeat split; assumption.
Qed.

(** [createOnlineWorkingCopy] resolves only after a job that reported
    [Completed] and a successful [openWorkingCopy] on the job's result. The
    working copy carries that result as its id, the model handle that was
    opened, and as source revision the one asked for, or revision -1 on the
    main line of the project when none was given; [openWorkingCopy] was the
    last thing done, and done once. *)
Theorem createOnlineWorkingCopy_resolves_with_the_opened_copy :
  forall client (project : Project) (revision : option Revision)
         (wire : list RawResponse) (workingCopy : OnlineWorkingCopy),
    let r := createOnlineWorkingCopy client project revision wire in
    out r = Resolved workingCopy ->
    openWorkingCopy (_modelSdkClient client) (OnlineWorkingCopy_id workingCopy)
    = OnSuccess (OnlineWorkingCopy_model workingCopy)
    /\ OnlineWorkingCopy_sourceRevision workingCopy
       = match revision with
         | Some rev => rev
         | None => {| Revision_num := Num (-1);
                      Revision_branch := {| Branch_project := Some project;
                                            Branch_name := VNull |} |}
         end
    /\ (exists t,
          trace r = (t ++ [EvOpenWorkingCopy (OnlineWorkingCopy_id workingCopy)])%list
          /\ openings t = 0 /\ 2 <= requests t)
    /\ exists submission wire' raw response,
         wire = submission :: wire'
         /\ In raw wire'
         /\ status_stages raw = Resolved response
         /\ toString (state (entity response)) = "Completed"
         /\ OnlineWorkingCopy_id workingCopy = result (entity response).
Proof.
  intros client project revision wire workingCopy r H. subst r.
  unfold createOnlineWorkingCopy in *.
  apply submit_then_poll_resolved in H.
  destruct H as (submission & wire' & submitted & jr & -> & Hs & Hjr & Hk & ->).
  cbn [out trace] in *.
  destruct (openWorkingCopy (_modelSdkClient client) (result jr)) as [model| |] eqn:Ho;
    try discriminate.
  injection Hk as <-. cbn [OnlineWorkingCopy_id OnlineWorkingCopy_model
                             OnlineWorkingCopy_sourceRevision].
  pose proof (awaitJobResult_outcome client (entity submitted) wire') as Hout.
  rewrite Hjr in Hout. destruct Hout as (Hc & raw & response & Hin & Hst & <-).
  split; [exact Ho|]. split; [reflexivity|]. split.
  - eexists. split; [rewrite app_comm_cons; reflexivity|].
    cbn [openings requests]. rewrite awaitJobResult_never_opens.
    pose proof (awaitJobResult_requests_pos client (entity submitted) wire').
    split; [reflexivity|lia].
  - exists submission, wire', raw, response. auto.
Qed.

(** A revision that [commitToTeamServer] resolved with can be turned into a
    working copy again: [revision.createWorkingCopy()] does not throw, and
    asks for a working copy of the project of the committed working copy, on
    the branch and at the revision number that the commit returned. The
    request goes out through the client that project holds, [owner], with its
    endpoint and credentials, whichever client did the commit. *)
Theorem committed_revision_opens_the_same_project :
  forall client owner (workingCopy : option OnlineWorkingCopy) (branchName : value)
         (baseRevision : option number) (wire : list RawResponse)
         (revision : Revision),
    out (commitToTeamServer client workingCopy branchName baseRevision wire)
    = Resolved revision ->
    exists wc project again,
      workingCopy = Some wc
      /\ OnlineWorkingCopy_project wc = Some project
      /\ Branch_project (Revision_branch revision) = Some project
      /\ Revision_createWorkingCopy owner revision = Some again
      /\ forall wire',
           exists t,
             trace (again wire')
             = EvRequest (_projectsApiEndpoint owner)
                 (_createRequestContent CreateOnlineWorkingCopyXml
                    [("Username", _username owner);
                     ("ApiKey", _apikey owner);
                     ("ProjectId", Project_id project);
                     ("Branch", Branch_name (Revision_branch revision));
                     ("Revision", VNum (Revision_num revision))]) :: t.
Proof.
  intros client owner workingCopy branchName baseRevision wire revision H.
  unfold commitToTeamServer in H.
  destruct workingCopy as [wc|]; [|discriminate].
  destruct (OnlineWorkingCopy_project wc) as [project|] eqn:Hp; [|discriminate].
  destruct (below_head _) eqn:Hb; [discriminate|].
  apply submit_then_poll_resolved in H.
  destruct H as (submission & wire0 & submitted & jr & -> & Hs & Hjr & Hk & _).
  cbn [out] in Hk. unfold revision_of_job in Hk. cbn [loose_eq_null] in Hk.
  injection Hk as <-.
  exists wc, project. eexists. split; [reflexivity|]. split; [exact Hp|].
  split; [reflexivity|]. split; [reflexivity|].
  intros wire'. unfold Project_createWorkingCopy, createOnlineWorkingCopy.
  cbn [Revision_branch Revision_num Branch_name].
  match goal with
  | |- exists t, trace (bind ?p ?f wire') = _ =>
      unfold bind; rewrite (send_trace _ _ _ wire');
      destruct (out (send _ _ _ wire')); cbn [trace after app]; eexists; reflexivity
  end.
Qed.

End Outcomes.

(** ** Numbers and their text *)

(** [parseInt] reads back what ToString prints: for every integer [z] from
    [-MAX_SAFE_INTEGER] to [MAX_SAFE_INTEGER], [parseInt(String(z))] and
    [parseInt(z)] are [z]; and text that follows the numeral is ignored, as
    long as it starts with neither a digit nor an [x]. *)
Theorem parseInt_reads_back_a_numeral :
  forall (z : Z) (rest : string),
    safe_integer z ->
    starts_with_digit rest = false ->
    starts_with_x rest = false ->
    parseInt (VStr (toString (VNum (Num z)))) = Num z
    /\ parseInt (VNum (Num z)) = Num z
    /\ parseInt (VStr (toString (VNum (Num z)) ++ rest)) = Num z.
Proof.
  intros z rest _ Hdigit Hx. cbn [toString].
  split; [apply parseInt_decimal|]. split; [exact (parseInt_decimal z)|].
  apply parseInt_numeral_then_text; assumption.
Qed.

(** ** Credentials *)

(** The constructor in full. It throws exactly when the API key is missing
    and the password or the OpenID provider is missing too, and then always
    with [Incomplete credentials]. Otherwise the API key wins over password
    and OpenID; the platform client keeps the user name and the API key as
    they came (a missing key included), and each endpoint falls back to its
    default when it is not given. *)
Theorem constructor_outcome :
  forall (backend : value -> callback IModel)
         (username apikey password openid projectsApiEndpoint modelApiEndpoint : value),
    match new_MendixSdkClient backend username apikey password openid
            projectsApiEndpoint modelApiEndpoint with
    | inl err =>
        err = VErr PlainError (VStr "Incomplete credentials")
        /\ truthy apikey = false
        /\ (truthy password = false \/ truthy openid = false)
    | inr client =>
        credentials (_modelSdkClient client)
        = (if truthy apikey then BackendCredentials username apikey
           else SdkCredentials username password openid)
        /\ (truthy apikey = true \/ (truthy password = true /\ truthy openid = true))
        /\ _username client = username
        /\ _apikey client = apikey
        /\ _projectsApiEndpoint client
           = (if truthy projectsApiEndpoint then toString projectsApiEndpoint
              else DEFAULT_PROJECTSAPI_ENDPOINT)
        /\ endPoint (_modelSdkClient client)
           = (if truthy modelApiEndpoint then toString modelApiEndpoint
              else DEFAULT_MODELAPI_ENDPOINT)
        /\ openWorkingCopy (_modelSdkClient client) = backend
    end.
Proof.
  intros backend username apikey password openid e1 e2.
  unfold new_MendixSdkClient, choose_credentials.
  destruct (truthy apikey); [cbn; repeat split; auto|].
  destruct (truthy password); [|cbn; auto].
  destruct (truthy openid); cbn; [repeat split; auto|auto].
Qed.

Section CommitRun.

Context {ext : Externals}.

(** A whole commit. On a working copy with a project and a base revision that
    is not below -1, when the submission is accepted, the job is reported
    [Running] any number of times and then [Completed] with the numeral of an
    integer from [-MAX_SAFE_INTEGER] to [MAX_SAFE_INTEGER] as result:
    [commitToTeamServer] resolves with the revision of that number, on
    the branch asked for, in the project of the working copy, after one
    request for the submission and one per status response. *)
Theorem commitToTeamServer_returns_the_revision_number :
  forall client (workingCopy : OnlineWorkingCopy) (project : Project)
         (branchName : value) (baseRevision : option number)
         (submission : RawResponse) (submitted : Response value)
         (running : list RawResponse) (last : RawResponse)
         (response : Response JobResult) (wire : list RawResponse) (z : Z),
    OnlineWorkingCopy_project workingCopy = Some project ->
    below_head (match baseRevision with Some n => n | None => Num (-1) end) = false ->
    submission_stages "Failed to commit to team server" submission
    = Resolved submitted ->
    Forall (reports "Running") running ->
    status_stages last = Resolved response ->
    state (entity response) = VStr "Completed" ->
    safe_integer z ->
    toString (result (entity response)) = decimal z ->
    let r := commitToTeamServer client (Some workingCopy) branchName baseRevision
               (submission :: running ++ last :: wire) in
    out r
    = Resolved {| Revision_num := Num z;
                  Revision_branch :=
                    {| Branch_project := Some project;
                       Branch_name := match branchName with
                                      | VUndefined => VNull
                                      | _ => branchName
                                      end |} |}
    /\ requests (trace r) = S (S (length running))
    /\ rest r = wire.
Proof.
  intros client workingCopy project branchName baseRevision submission submitted
         running last response wire z Hp Hb Hs Hrun Hst Hdone _ Hz r. subst r.
  unfold commitToTeamServer. rewrite Hp, Hb.
  rewrite (bind_send_resolved _ _ _ _ _ _ _ Hs).
  destruct (awaitJobResult_running_prefix client (entity submitted) running
              (last :: wire) Hrun) as (H1 & H2 & H3).
  rewrite (awaitJobResult_completed _ _ _ _ _ Hst Hdone) in H1, H2, H3.
  cbn [out trace rest] in H1, H2, H3.
  unfold bind. rewrite H2. cbn [out trace rest after app requests].
  rewrite H3, app_nil_r, H1.
  unfold revision_of_job. cbn [loose_eq_null].
  assert (Hn : parseInt (result (entity response)) = Num z).
  { unfold parseInt. rewrite Hz. exact (parseInt_decimal z). }
  rewrite Hn.
  split; [reflexivity|]. split; [simpl; lia|reflexivity].
Qed.

End CommitRun.

(** ** The further properties on the sample environment *)

Lemma transport_error_is_reported_first_witness :
  submission_stages (ext := sample_externals) "Failed to create new app"
    unreachable_response
  = Rejected (VStr "Connection error: getaddrinfo ENOTFOUND")
  /\ out (_awaitJobResult (ext := sample_externals) sample_client (VStr "J1")
            [unreachable_response; ok_response doc_completed])
     = Rejected (VStr "Connection error: getaddrinfo ENOTFOUND").
Proof.
  pose proof (transport_error_is_reported_first (ext := sample_externals)
                "Failed to create new app" unreachable_response sample_client
                (VStr "J1") [ok_response doc_completed] eq_refl) as H.
  cbv zeta in H. destruct H as (_ & H1 & _ & H2).
  split; [exact H1|]. rewrite H2. reflexivity.
Defined.

Lemma empty_response_is_invalid_witness :
  submission_stages (ext := sample_externals) "Failed to create new app"
    (fault_response "")
  = Rejected (VStr "Error: invalid HTTP response").
Proof.
  exact (proj1 (proj2 (empty_response_is_invalid (ext := sample_externals)
                         "Failed to create new app" (fault_response "")
                         eq_refl (or_intror eq_refl)))).
Defined.

Lemma unexpected_status_is_reported_witness :
  submission_stages (ext := sample_externals) "Failed to create new app"
    not_found_response
  = Rejected (VStr "Unexpected HTTP response code: 404 Not Found. Please retry after a few minutes. If the problem persists, please consult https://mxforum.mendix.com").
Proof.
  pose proof (unexpected_status_is_reported (ext := sample_externals)
                "Failed to create new app" not_found_response 404 eq_refl eq_refl
                ltac:(discriminate) ltac:(discriminate) ltac:(discriminate)) as H.
  cbv zeta in H. exact (proj1 (proj2 H)).
Defined.

Lemma entity_missing_is_unreachable_witness :
  _parseResult (ext := sample_externals) (ok_response doc_job_submitted)
  <> Rejected (VStr "Error: HTTP response entity missing").
Proof.
  exact (proj1 (proj2 (proj2 (entity_missing_is_unreachable (ext := sample_externals)
                                "Failed to create new app"
                                (ok_response doc_job_submitted)
                                (ok_response doc_job_submitted) eq_refl)))).
Defined.

Lemma submission_resolves_with_a_result_witness :
  isEmpty (VStr "J1") = false
  /\ exists tree matches,
       parseString (Externals := sample_externals) doc_job_submitted = inr tree
       /\ jsonpath_query (Externals := sample_externals) tree "$..Result[0]"
          = inr matches
       /\ VStr "J1" = first matches.
Proof.
  destruct (submission_resolves_with_a_result (ext := sample_externals)
              "Failed to create new app" (ok_response doc_job_submitted)
              (set_entity (ok_response doc_job_submitted) (VStr "J1")) eq_refl)
    as (H1 & _ & _ & _ & H2).
  split; [exact H1|exact H2].
Defined.

Lemma parse_errors_of_the_two_chains_witness :
  submission_stages (ext := sample_externals) "Failed to create new app"
    (ok_response doc_malformed)
  = Rejected (VErr ParseError (VErr PlainError (VStr "Unexpected close tag")))
  /\ status_stages (ext := sample_externals) (ok_response doc_malformed)
     = Rejected (VErr PlainError (VStr "Unexpected close tag")).
Proof.
  exact (parse_errors_of_the_two_chains (ext := sample_externals)
           "Failed to create new app" (ok_response doc_malformed)
           (VErr PlainError (VStr "Unexpected close tag"))
           eq_refl eq_refl ltac:(discriminate) eq_refl).
Defined.

Lemma polling_stops_at_the_first_error_witness :
  let r := _awaitJobResult (ext := sample_externals) sample_client (VStr "J1")
             [ok_response doc_running; not_found_response;
              ok_response doc_completed] in
  requests (trace r) = 2 /\ rest r = [ok_response doc_completed].
Proof.
  destruct (polling_stops_at_the_first_error (ext := sample_externals)
              sample_client (VStr "J1") [ok_response doc_running]
              not_found_response [ok_response doc_completed] _
              (Forall_cons _ sample_running (Forall_nil _)) eq_refl)
    as (_ & H1 & H2).
  split; [exact H1|exact H2].
Defined.

Lemma failed_submission_never_polls_witness :
  let r := createNewApp (ext := sample_externals) sample_client (VStr "Foo")
             (VStr "desc") [not_found_response; ok_response doc_completed] in
  length (trace r) = 1 /\ rest r = [ok_response doc_completed].
Proof.
  destruct (failed_submission_never_polls (ext := sample_externals) sample_client
              not_found_response [ok_response doc_completed]) as (H & _).
  destruct (H (VStr "Foo") (VStr "desc") _ eq_refl) as (_ & H1 & _ & H2).
  split; [exact H1|exact H2].
Defined.

Lemma commitToTeamServer_needs_a_project_witness :
  commitToTeamServer (ext := sample_externals) sample_client None VNull
    (Some (Num (-2))) [ok_response doc_job_submitted]
  = {| trace := []; rest := [ok_response doc_job_submitted];
       out := Rejected
                (VStr "Working copy is empty or does not contain referral to project") |}.
Proof.
  exact (commitToTeamServer_needs_a_project (ext := sample_externals) sample_client
           None VNull (Some (Num (-2))) [ok_response doc_job_submitted] I).
Defined.


Lemma createNewApp_resolves_with_the_job_result_witness :
  2 <= requests
         (trace (createNewApp (ext := sample_externals) sample_client (VStr "Foo")
                   (VStr "desc")
                   [ok_response doc_job_submitted; ok_response doc_completed])).
Proof.
  exact (proj1 (proj2 (createNewApp_resolves_with_the_job_result
                         (ext := sample_externals) sample_client (VStr "Foo")
                         (VStr "desc")
                         [ok_response doc_job_submitted; ok_response doc_completed]
                         {| Project_id := VStr "app-42"; Project_name := VStr "Foo" |}
                         eq_refl))).
Defined.

Lemma commitToTeamServer_resolves_with_the_revision_witness :
  exists wc project,
    Some (sample_working_copy (OnSuccess tt)) = Some wc
    /\ OnlineWorkingCopy_project wc = Some project.
Proof.
  destruct (commitToTeamServer_resolves_with_the_revision
              (ext := sample_externals_with_revision) sample_client
              (Some (sample_working_copy (OnSuccess tt))) VUndefined None
              [ok_response doc_job_submitted; ok_response doc_revision]
              {| Revision_num := Num 3;
                 Revision_branch := {| Branch_project := Some sample_project;
                                       Branch_name := VNull |} |}
              eq_refl)
    as (wc & project & _ & _ & _ & _ & H1 & H2 & _).
  exists wc, project. split; [exact H1|exact H2].
Defined.

Lemma createOnlineWorkingCopy_resolves_with_the_opened_copy_witness :
  openWorkingCopy (_modelSdkClient sample_client) (VStr "app-42")
  = OnSuccess {| closeConnection := OnSuccess tt |}.
Proof.
  exact (proj1 (createOnlineWorkingCopy_resolves_with_the_opened_copy
                  (ext := sample_externals) sample_client sample_project None
                  [ok_response doc_job_submitted; ok_response doc_completed]
                  {| OnlineWorkingCopy_id := VStr "app-42";
                     OnlineWorkingCopy_sourceRevision :=
                       {| Revision_num := Num (-1);
                          Revision_branch := {| Branch_project := Some sample_project;
                                                Branch_name := VNull |} |};
                     OnlineWorkingCopy_model := {| closeConnection := OnSuccess tt |} |}
                  eq_refl)).
Defined.

Lemma committed_revision_opens_the_same_project_witness :
  exists again t,
    Revision_createWorkingCopy (ext := sample_externals_with_revision) sample_client
      {| Revision_num := Num 3;
         Revision_branch := {| Branch_project := Some sample_project;
                               Branch_name := VNull |} |}
    = Some again
    /\ trace (again [])
       = EvRequest DEFAULT_PROJECTSAPI_ENDPOINT
           (_createRequestContent (ext := sample_externals_with_revision)
              CreateOnlineWorkingCopyXml
              [("Username", VStr "richard"); ("ApiKey", VStr "key");
               ("ProjectId", VStr "P-99"); ("Branch", VNull);
               ("Revision", VNum (Num 3))]) :: t.
Proof.
  destruct (committed_revision_opens_the_same_project
              (ext := sample_externals_with_revision) other_client sample_client
              (Some (sample_working_copy (OnSuccess tt))) VUndefined None
              [ok_response doc_job_submitted; ok_response doc_revision]
              {| Revision_num := Num 3;
                 Revision_branch := {| Branch_project := Some sample_project;
                                       Branch_name := VNull |} |}
              eq_refl)
    as (wc & project & again & Hwc & Hp & _ & H & Htrace).
  injection Hwc as <-. injection Hp as <-.
  destruct (Htrace []) as [t Ht].
  exists again, t. split; [exact H|exact Ht].
Defined.

Lemma commitToTeamServer_returns_the_revision_number_witness :
  let r := commitToTeamServer (ext := sample_externals_with_revision) sample_client
             (Some (sample_working_copy (OnSuccess tt))) VUndefined None
             [ok_response doc_job_submitted; ok_response doc_running;
              ok_response doc_revision] in
  out r = Resolved {| Revision_num := Num 3;
                      Revision_branch := {| Branch_project := Some sample_project;
                                            Branch_name := VNull |} |}
  /\ requests (trace r) = 3.
Proof.
  destruct (commitToTeamServer_returns_the_revision_number
              (ext := sample_externals_with_revision) sample_client
              (sample_working_copy (OnSuccess tt)) sample_project VUndefined None
              (ok_response doc_job_submitted) _ [ok_response doc_running]
              (ok_response doc_revision) _ [] 3
              eq_refl eq_refl eq_refl
              (Forall_cons _
                 (ex_intro _ _ (conj eq_refl eq_refl)
                  : reports (ext := sample_externals_with_revision) "Running"
                      (ok_response doc_running))
                 (Forall_nil _))
              eq_refl eq_refl (proj1 (proj2 small_integers_are_safe)) eq_refl)
    as (H1 & H2 & _).
  split; [exact H1|exact H2].
Defined.

Lemma parseInt_reads_back_a_numeral_witness :
  parseInt (VStr "12") = Num 12 /\ parseInt (VStr "12abc") = Num 12.
Proof.
  destruct (parseInt_reads_back_a_numeral 12 "abc"
              (proj2 (proj2 small_integers_are_safe)) eq_refl eq_refl)
    as (H1 & _ & H2).
  split; [exact H1|exact H2].
Defined.
